(** * Valuation core of [generate_lly_report.py]

    A shallow embedding of the numeric pipeline of the report generator:
    [calculate_wacc], [calculate_dcf], the model section of
    [generate_report] (revenue, margins, EPS, free cash flow, price
    targets, scenario blending) and the [__main__] block.

    Numbers.  A Python number is a [pyval]: [PyNone], the float NaN, or a
    finite number carried as an exact rational ([Q]).  Arithmetic on finite
    numbers is exact: binary64 rounding, overflow and the infinities are
    not modelled (two concrete blends are also evaluated on machine floats,
    see [scenario_blend_binary64]).  What Python does beyond arithmetic is
    modelled as
    written: an operation on [None] raises [TypeError], a division by zero
    raises [ZeroDivisionError], NaN propagates and compares false, an index
    out of range raises [IndexError], and [try]/[except] turns a raised
    exception into the handler's value. *)

From Stdlib Require Import QArith Qabs Qpower Qminmax Lqa Lia List String ZArith Bool.
From Stdlib Require Import PrimFloat.
Import ListNotations.
Local Open Scope Q_scope.

(** ** Exceptions and the error monad *)

(** The subclasses of [Exception] the modelled code can raise. *)
Inductive exn : Type :=
| TypeError
| ZeroDivisionError
| IndexError
| UnicodeEncodeError
| RenderError.

Definition result (A : Type) : Type := (exn + A)%type.

Definition ret {A : Type} (a : A) : result A := inr a.
Definition raise {A : Type} (e : exn) : result A := inl e.

Definition bind {A B : Type} (c : result A) (k : A -> result B) : result B :=
  match c with
  | inl e => inl e
  | inr a => k a
  end.

Notation "x <- c ;; k" := (bind c (fun x => k))
  (at level 61, c at next level, right associativity).

(** [try: c except: h] *)
Definition try_except {A : Type} (c : result A) (h : A) : A :=
  match c with
  | inl _ => h
  | inr a => a
  end.

(** ** Python values *)

Inductive pyval : Type :=
| PyNone
| PyNaN
| PyNum (q : Q).

Definition Qltb (a b : Q) : bool := negb (Qle_bool b a).

(** [a + b], [a - b], [a * b] *)
Definition py_arith (f : Q -> Q -> Q) (a b : pyval) : result pyval :=
  match a, b with
  | PyNone, _ => raise TypeError
  | _, PyNone => raise TypeError
  | PyNaN, _ => ret PyNaN
  | _, PyNaN => ret PyNaN
  | PyNum x, PyNum y => ret (PyNum (f x y))
  end.

Definition py_add : pyval -> pyval -> result pyval := py_arith Qplus.
Definition py_sub : pyval -> pyval -> result pyval := py_arith Qminus.
Definition py_mul : pyval -> pyval -> result pyval := py_arith Qmult.

(** [a / b]: a zero divisor raises, whatever the dividend. *)
Definition py_div (a b : pyval) : result pyval :=
  match a, b with
  | PyNone, _ => raise TypeError
  | _, PyNone => raise TypeError
  | _, PyNum y =>
      if Qeq_bool y 0 then raise ZeroDivisionError
      else match a with
           | PyNum x => ret (PyNum (x / y))
           | _ => ret PyNaN
           end
  | _, PyNaN => ret PyNaN
  end.

(** [a ** n] for an [int] exponent [n >= 0]. *)
Definition py_pow (a : pyval) (n : nat) : result pyval :=
  match a with
  | PyNone => raise TypeError
  | PyNaN => ret (match n with O => PyNum 1 | S _ => PyNaN end)
  | PyNum x => ret (PyNum (x ^ Z.of_nat n))
  end.

(** [a < b] and [a > b]: false as soon as one side is NaN. *)
Definition py_lt (a b : pyval) : result bool :=
  match a, b with
  | PyNone, _ => raise TypeError
  | _, PyNone => raise TypeError
  | PyNum x, PyNum y => ret (Qltb x y)
  | _, _ => ret false
  end.

Definition py_gt (a b : pyval) : result bool := py_lt b a.

(** [max(a, b)]: keeps [a] unless [b > a]. *)
Definition py_max (a b : pyval) : result pyval :=
  g <- py_gt b a ;;
  ret (if g then b else a).

(** [abs(a)] *)
Definition py_abs (a : pyval) : result pyval :=
  match a with
  | PyNone => raise TypeError
  | PyNaN => ret PyNaN
  | PyNum x => ret (PyNum (Qabs x))
  end.

(** Truth value of [a] in a condition: [None] and zero are false. *)
Definition truthy (a : pyval) : bool :=
  match a with
  | PyNone => false
  | PyNaN => true
  | PyNum x => negb (Qeq_bool x 0)
  end.

(** [pd.isna(a)] *)
Definition isna (a : pyval) : bool :=
  match a with
  | PyNum _ => false
  | _ => true
  end.

(** [a is None] *)
Definition is_none (a : pyval) : bool :=
  match a with
  | PyNone => true
  | _ => false
  end.

(** ** Dictionaries: the [info] mapping of the data provider *)

Definition dict : Type := list (string * pyval).

Fixpoint lookup (d : dict) (k : string) : option pyval :=
  match d with
  | [] => None
  | (k', v) :: d' => if String.eqb k k' then Some v else lookup d' k
  end.

(** [d.get(k, default)] *)
Definition get (d : dict) (k : string) (default : pyval) : pyval :=
  match lookup d k with
  | Some v => v
  | None => default
  end.

(** An empty mapping is false in a condition. *)
Definition dict_truthy (d : dict) : bool :=
  match d with
  | [] => false
  | _ :: _ => true
  end.

(** ** [calculate_wacc] (source lines 124-168) *)

Definition calculate_wacc_body (info : dict)
    (risk_free_rate market_risk_premium : pyval) : result pyval :=
  let beta_raw := get info "beta" (PyNum 0.8) in
  beta0 <- py_max beta_raw (PyNum 0.7) ;;
  low <- py_lt beta_raw (PyNum 0.5) ;;
  let beta := if low then PyNum 0.75 else beta0 in
  let total_debt := get info "totalDebt" (PyNum 0) in
  let total_cash := get info "totalCash" (PyNum 0) in
  let market_cap := get info "marketCap" (PyNum 0) in
  premium <- py_mul beta market_risk_premium ;;
  cost_of_equity <- py_add risk_free_rate premium ;;
  let interest_expense := get info "interestExpense" (PyNum 0) in
  cost_of_debt <-
    (if truthy interest_expense && truthy total_debt then
       a <- py_abs interest_expense ;;
       py_div a total_debt
     else py_add risk_free_rate (PyNum 0.015)) ;;
  let equity_value := market_cap in
  debt_value <- py_sub total_debt total_cash ;;
  total_value <- py_add equity_value debt_value ;;
  positive <- py_gt total_value (PyNum 0) ;;
  if positive then
    equity_weight <- py_div equity_value total_value ;;
    debt_weight <- py_div debt_value total_value ;;
    let tax_rate := PyNum 0.21 in
    e <- py_mul equity_weight cost_of_equity ;;
    dc <- py_mul debt_weight cost_of_debt ;;
    shield <- py_sub (PyNum 1) tax_rate ;;
    d <- py_mul dc shield ;;
    py_add e d
  else ret (PyNum 0.085).

Definition calculate_wacc_with (info : dict)
    (risk_free_rate market_risk_premium : pyval) : pyval :=
  try_except (calculate_wacc_body info risk_free_rate market_risk_premium)
             (PyNum 0.085).

(** The call with the default keyword arguments. *)
Definition calculate_wacc (info : dict) : pyval :=
  calculate_wacc_with info (PyNum 0.045) (PyNum 0.06).

(** ** [calculate_dcf] (source lines 170-189) *)

(** The loop [for i, cf in enumerate(cashflows, 1)], entered at index [i]
    with the running [pv_cf]. *)
Fixpoint discount_loop (cashflows : list pyval) (i : nat) (wacc pv_cf : pyval)
    : result pyval :=
  match cashflows with
  | [] => ret pv_cf
  | cf :: rest =>
      base <- py_add (PyNum 1) wacc ;;
      factor <- py_pow base i ;;
      term <- py_div cf factor ;;
      pv_cf' <- py_add pv_cf term ;;
      discount_loop rest (S i) wacc pv_cf'
  end.

(** [cashflows[-1]] *)
Fixpoint last_item (l : list pyval) : result pyval :=
  match l with
  | [] => raise IndexError
  | [x] => ret x
  | _ :: rest => last_item rest
  end.

Definition calculate_dcf_body (cashflows : list pyval)
    (wacc terminal_growth : pyval) (years : nat)
    : result (pyval * pyval * pyval) :=
  pv_cf <- discount_loop cashflows 1 wacc (PyNum 0) ;;
  last_cf <- last_item cashflows ;;
  growth <- py_add (PyNum 1) terminal_growth ;;
  terminal_cf <- py_mul last_cf growth ;;
  spread <- py_sub wacc terminal_growth ;;
  terminal_value <- py_div terminal_cf spread ;;
  base <- py_add (PyNum 1) wacc ;;
  factor <- py_pow base years ;;
  pv_terminal <- py_div terminal_value factor ;;
  ev <- py_add pv_cf pv_terminal ;;
  ret (ev, pv_cf, pv_terminal).

(** Returns [(ev, pv_cf, pv_terminal)], or three [None] after an
    exception. *)
Definition calculate_dcf (cashflows : list pyval)
    (wacc terminal_growth : pyval) (years : nat) : pyval * pyval * pyval :=
  try_except (calculate_dcf_body cashflows wacc terminal_growth years)
             (PyNone, PyNone, PyNone).

(** ** What [fetch_lly_data] hands to [generate_report] *)

(** A statement table: row label, then the yearly figures, most recent
    year first. *)
Definition frame : Type := list (string * list pyval).

Record fetched : Type := {
  lly_info : option dict;
  lly_hist : option (list pyval);   (* the Close column, oldest first *)
  financials : option frame;
  analyst_targets : option dict
}.

(** [row.iloc[n]] *)
Definition iloc (row : list pyval) (n : nat) : result pyval :=
  match nth_error row n with
  | Some v => ret v
  | None => raise IndexError
  end.

(** [financials.loc[label]] when [financials is not None and label in
    financials.index]. *)
Definition statement_row (f : option frame) (label : string)
    : option (list pyval) :=
  match f with
  | None => None
  | Some rows =>
      match find (fun r => String.eqb label (fst r)) rows with
      | Some r => Some (snd r)
      | None => None
      end
  end.

(** ** Base-year revenue (source lines 211-217) *)

Definition base_revenue (f : option frame) (info : dict) : result pyval :=
  match statement_row f "Total Revenue" with
  | Some row =>
      first <- iloc row 0 ;;
      revenue_2024 <- py_div first (PyNum 1e9) ;;
      if isna revenue_2024 then
        second <- iloc row 1 ;;
        py_div second (PyNum 1e9)
      else ret revenue_2024
  | None => py_div (get info "totalRevenue" (PyNum 45.0e9)) (PyNum 1e9)
  end.

(** ** Input resolution (source lines 196-220) *)

Record inputs : Type := {
  current_price : pyval;
  market_cap : pyval;
  revenue_2024 : pyval;
  ttm_eps : pyval;
  forward_eps : pyval
}.

Definition resolve_inputs (d : fetched) : result inputs :=
  match lly_info d, lly_hist d with
  | Some info, Some hist =>
      last_close <- last_item hist ;;
      let price := get info "currentPrice" last_close in
      price <- (if is_none price then last_item hist else ret price) ;;
      let cap := get info "marketCap" (PyNum 980e9) in
      let cap := if is_none cap then PyNum 980e9 else cap in
      revenue <- base_revenue (financials d) info ;;
      ret {| current_price := price;
             market_cap := cap;
             revenue_2024 := revenue;
             ttm_eps := get info "trailingEps" (PyNum 20.45);
             forward_eps := get info "forwardEps" (PyNum 22.66) |}
  | _, _ =>
      ret {| current_price := PyNum 1030.05;
             market_cap := PyNum 980e9;
             revenue_2024 := PyNum 45.0;
             ttm_eps := PyNum 19.80;
             forward_eps := PyNum 22.66 |}
  end.

(** ** Revenue and segment forecast (source lines 230-241) *)

Record revenue_forecast : Type := {
  revenue_2025 : pyval;
  revenue_2026 : pyval;
  revenue_2027 : pyval;
  glp1_2024 : pyval;
  glp1_2025 : pyval;
  glp1_2026 : pyval;
  glp1_2027 : pyval
}.

Definition revenue_model (revenue_2024 : pyval) : result revenue_forecast :=
  let r2025 := PyNum 59.5 in
  r2026 <- py_mul r2025 (PyNum 1.28) ;;
  r2027 <- py_mul r2026 (PyNum 1.22) ;;
  g2024 <- py_mul revenue_2024 (PyNum 0.45) ;;
  g2025 <- py_mul r2025 (PyNum 0.55) ;;
  g2026 <- py_mul r2026 (PyNum 0.60) ;;
  g2027 <- py_mul r2027 (PyNum 0.62) ;;
  ret {| revenue_2025 := r2025; revenue_2026 := r2026; revenue_2027 := r2027;
         glp1_2024 := g2024; glp1_2025 := g2025;
         glp1_2026 := g2026; glp1_2027 := g2027 |}.

(** ** Operating margins (source lines 246-267) *)

Definition operating_margin_2024 (info : option dict) : result pyval :=
  match info with
  | Some i =>
      if dict_truthy i && truthy (get i "operatingMargins" PyNone) then
        let op_margin_actual := get i "operatingMargins" PyNone in
        high <- py_gt op_margin_actual (PyNum 0.40) ;;
        if high then ret (PyNum 0.38)
        else
          fair <- py_gt op_margin_actual (PyNum 0.30) ;;
          if fair then ret op_margin_actual else ret (PyNum 0.38)
      else ret (PyNum 0.38)
  | None => ret (PyNum 0.38)
  end.

Record margins : Type := {
  op_margin_2024 : pyval;
  op_margin_2025 : pyval;
  op_margin_2026 : pyval;
  op_margin_2027 : pyval;
  op_margin_2026_bull : pyval
}.

Definition margin_model (info : option dict) : result margins :=
  m2024 <- operating_margin_2024 info ;;
  m2025 <- py_add m2024 (PyNum 0.01) ;;
  m2026 <- py_add m2025 (PyNum 0.01) ;;
  m2027 <- py_add m2026 (PyNum 0.005) ;;
  bull <- py_add m2026 (PyNum 0.02) ;;
  ret {| op_margin_2024 := m2024; op_margin_2025 := m2025;
         op_margin_2026 := m2026; op_margin_2027 := m2027;
         op_margin_2026_bull := bull |}.

(** ** EPS path (source lines 269-294) *)

Record earnings : Type := {
  shares_outstanding : pyval;
  eps_2024 : pyval;
  eps_2025 : pyval;
  eps_2026 : pyval;
  eps_2027 : pyval
}.

(** [(revenue * margin * 1e9) / shares] *)
Definition naive_eps (revenue margin shares : pyval) : result pyval :=
  a <- py_mul revenue margin ;;
  b <- py_mul a (PyNum 1e9) ;;
  py_div b shares.

Definition eps_model (i : inputs) (r : revenue_forecast) (m : margins)
    : result earnings :=
  shares <- py_div (market_cap i) (current_price i) ;;
  let e2024 := if truthy (forward_eps i) then forward_eps i else ttm_eps i in
  e2025 <- naive_eps (revenue_2025 r) (op_margin_2025 m) shares ;;
  e2026 <- naive_eps (revenue_2026 r) (op_margin_2026 m) shares ;;
  e2027 <- naive_eps (revenue_2027 r) (op_margin_2027 m) shares ;;
  dip <- py_lt e2025 e2024 ;;
  if dip then
    e2025 <- py_mul e2024 (PyNum 1.10) ;;
    e2026 <- py_mul e2025 (PyNum 1.25) ;;
    e2027 <- py_mul e2026 (PyNum 1.20) ;;
    ret {| shares_outstanding := shares; eps_2024 := e2024;
           eps_2025 := e2025; eps_2026 := e2026; eps_2027 := e2027 |}
  else
    dip26 <- py_lt e2026 e2025 ;;
    e2026 <- (if dip26 then py_mul e2025 (PyNum 1.20) else ret e2026) ;;
    dip27 <- py_lt e2027 e2026 ;;
    e2027 <- (if dip27 then py_mul e2026 (PyNum 1.15) else ret e2027) ;;
    ret {| shares_outstanding := shares; eps_2024 := e2024;
           eps_2025 := e2025; eps_2026 := e2026; eps_2027 := e2027 |}.

(** Lines 230-294 in sequence: revenue, margins, then the EPS path. *)
Definition earnings_forecast (i : inputs) (info : option dict)
    : result earnings :=
  r <- revenue_model (revenue_2024 i) ;;
  m <- margin_model info ;;
  eps_model i r m.

(** ** Free cash flow (source lines 296-305, 315) *)

(** [revenue * margin * conversion * 1e9] *)
Definition fcf (revenue margin conversion : pyval) : result pyval :=
  a <- py_mul revenue margin ;;
  b <- py_mul a conversion ;;
  py_mul b (PyNum 1e9).

Definition cashflow_model (revenue_2024 : pyval) (r : revenue_forecast)
    (m : margins) : result (list pyval) :=
  fcf_2024 <- fcf revenue_2024 (op_margin_2024 m) (PyNum 0.87) ;;
  fcf_2025 <- fcf (revenue_2025 r) (op_margin_2025 m) (PyNum 0.89) ;;
  fcf_2026 <- fcf (revenue_2026 r) (op_margin_2026 m) (PyNum 0.91) ;;
  fcf_2027 <- fcf (revenue_2027 r) (op_margin_2027 m) (PyNum 0.92) ;;
  revenue_2028 <- py_mul (revenue_2027 r) (PyNum 1.15) ;;
  fcf_2028 <- fcf revenue_2028 (op_margin_2027 m) (PyNum 0.93) ;;
  year5 <- py_mul fcf_2028 (PyNum 1.15) ;;
  ret [fcf_2025; fcf_2026; fcf_2027; fcf_2028; year5].

(** ** Discount rate and DCF price (source lines 307-324) *)

Definition info_truthy (info : option dict) : bool :=
  match info with
  | Some i => dict_truthy i
  | None => false
  end.

Definition info_or_empty (info : option dict) : dict :=
  match info with
  | Some i => i
  | None => []
  end.

Definition discount_rate (info : option dict) : pyval :=
  if info_truthy info then calculate_wacc (info_or_empty info)
  else PyNum 0.095.

Definition dcf_price_of (info : option dict) (dcf_ev shares : pyval)
    : result pyval :=
  if truthy dcf_ev && info_truthy info then
    let i := info_or_empty info in
    net_debt <- py_sub (get i "totalDebt" (PyNum 0))
                       (get i "totalCash" (PyNum 0)) ;;
    equity_value <- py_sub dcf_ev net_debt ;;
    positive <- py_gt shares (PyNum 0) ;;
    if positive then py_div equity_value shares else ret PyNone
  else ret PyNone.

(** ** Scenario price targets (source lines 326-367) *)

(** [(pe * 0.5) + (dcf * 0.5)] when a DCF price is available, else [pe]. *)
Definition blend_with_dcf (pe dcf_price scale : pyval) : result pyval :=
  if truthy dcf_price then
    dcf <- py_mul dcf_price scale ;;
    a <- py_mul pe (PyNum 0.5) ;;
    b <- py_mul dcf (PyNum 0.5) ;;
    py_add a b
  else ret pe.

Definition base_target (eps_2026 dcf_price : pyval)
    (targets : option dict) : result pyval :=
  let target_pe_2026 := PyNum 45.0 in
  target_price_base_pe <- py_mul eps_2026 target_pe_2026 ;;
  target_price_base <-
    (if truthy dcf_price then
       a <- py_mul target_price_base_pe (PyNum 0.5) ;;
       b <- py_mul dcf_price (PyNum 0.5) ;;
       py_add a b
     else ret target_price_base_pe) ;;
  if info_truthy targets then
    let consensus_target :=
      get (info_or_empty targets) "mean" target_price_base in
    a <- py_mul target_price_base (PyNum 0.8) ;;
    b <- py_mul consensus_target (PyNum 0.2) ;;
    py_add a b
  else ret target_price_base.

Definition bull_target (eps_2026 dcf_price : pyval) : result pyval :=
  eps_2026_bull <- py_mul eps_2026 (PyNum 1.15) ;;
  target_price_bull_pe <- py_mul eps_2026_bull (PyNum 52.0) ;;
  blend_with_dcf target_price_bull_pe dcf_price (PyNum 1.15).

Definition bear_target (eps_2026 dcf_price : pyval) : result pyval :=
  eps_2026_bear <- py_mul eps_2026 (PyNum 0.85) ;;
  target_price_bear_pe <- py_mul eps_2026_bear (PyNum 28.0) ;;
  blend_with_dcf target_price_bear_pe dcf_price (PyNum 0.85).

(** ** Probability-weighted target (source lines 369-384) *)

Definition prob_bull : pyval := PyNum 0.35.
Definition prob_base : pyval := PyNum 0.45.
Definition prob_bear : pyval := PyNum 0.20.

Definition weighted_target (target_price_bull target_price_base
    target_price_bear : pyval) : result pyval :=
  a <- py_mul target_price_bull prob_bull ;;
  b <- py_mul target_price_base prob_base ;;
  ab <- py_add a b ;;
  c <- py_mul target_price_bear prob_bear ;;
  py_add ab c.

Definition final_target (target_price_weighted target_price_bull : pyval)
    : result pyval :=
  a <- py_mul target_price_weighted (PyNum 0.6) ;;
  b <- py_mul target_price_bull (PyNum 0.4) ;;
  py_add a b.

Definition upside_of (target_price current_price : pyval) : result pyval :=
  gain <- py_sub target_price current_price ;;
  ratio <- py_div gain current_price ;;
  py_mul ratio (PyNum 100).

Record blended : Type := {
  target_price_weighted : pyval;
  target_price : pyval
}.

Definition scenario_blend (target_price_bull target_price_base
    target_price_bear : pyval) : result blended :=
  w <- weighted_target target_price_bull target_price_base
                       target_price_bear ;;
  t <- final_target w target_price_bull ;;
  ret {| target_price_weighted := w; target_price := t |}.

(** ** The model section of [generate_report] (source lines 194-384) *)

Record valuation : Type := {
  val_inputs : inputs;
  val_revenue : revenue_forecast;
  val_margins : margins;
  val_earnings : earnings;
  cashflows : list pyval;
  wacc : pyval;
  dcf_ev : pyval;
  dcf_price : pyval;
  target_price_base : pyval;
  target_price_bull : pyval;
  target_price_bear : pyval;
  val_blend : blended;
  upside : pyval
}.

Definition valuation_model (d : fetched) : result valuation :=
  i <- resolve_inputs d ;;
  r <- revenue_model (revenue_2024 i) ;;
  m <- margin_model (lly_info d) ;;
  e <- eps_model i r m ;;
  cfs <- cashflow_model (revenue_2024 i) r m ;;
  let w := discount_rate (lly_info d) in
  let '(ev, _, _) := calculate_dcf cfs w (PyNum 0.035) 5 in
  price <- dcf_price_of (lly_info d) ev (shares_outstanding e) ;;
  base <- base_target (eps_2026 e) price (analyst_targets d) ;;
  bull <- bull_target (eps_2026 e) price ;;
  bear <- bear_target (eps_2026 e) price ;;
  b <- scenario_blend bull base bear ;;
  u <- upside_of (target_price b) (current_price i) ;;
  ret {| val_inputs := i; val_revenue := r; val_margins := m;
         val_earnings := e; cashflows := cfs; wacc := w; dcf_ev := ev;
         dcf_price := price; target_price_base := base;
         target_price_bull := bull; target_price_bear := bear;
         val_blend := b; upside := u |}.

(** ** [generate_report] and the [__main__] block (source lines 191-194,
    386-1050) *)

(** What a run does that can be observed from outside.  The messages of
    the helpers ([fetch_lly_data], [calculate_dcf]) are not recorded. *)
Inductive event : Type :=
| PrintFetching                   (* line 193 *)
| PrintFallback                   (* line 197 *)
| Output (path : string)          (* line 1040: pdf.output is called *)
| PrintSuccess (path : string)    (* line 1041 *)
| PrintError (e : exn)            (* line 1048 *)
| PrintTraceback (e : exn).       (* line 1050 *)

(** The document library and the terminal, as far as the run depends on
    them: assembling the pages in memory (lines 386-1037), writing the
    file (line 1040) and printing the success line (line 1041, which
    starts with U+2713 and needs a terminal encoding that has it) may each
    raise. *)
Record renderer : Type := {
  layout : valuation -> result unit;
  output : string -> result unit;
  confirm : string -> result unit
}.

Definition fallback (d : fetched) : bool :=
  match lly_info d, lly_hist d with
  | Some _, Some _ => false
  | _, _ => true
  end.

Definition output_file : string := "LLY_Equity_Research_Report.pdf".

Definition generate_report (d : fetched) (pdf : renderer)
    : list event * result string :=
  let started :=
    PrintFetching :: (if fallback d then [PrintFallback] else []) in
  match valuation_model d with
  | inl e => (started, inl e)
  | inr v =>
      match layout pdf v with
      | inl e => (started, inl e)
      | inr _ =>
          match output pdf output_file with
          | inl e => (started ++ [Output output_file], inl e)
          | inr _ =>
              match confirm pdf output_file with
              | inl e => (started ++ [Output output_file], inl e)
              | inr _ =>
                  (started ++ [Output output_file; PrintSuccess output_file],
                   inr output_file)
              end
          end
      end
  end.

Record process : Type := {
  log : list event;
  exit_status : Z
}.

(** The handler prints and returns; the script then reaches its end, so
    the interpreter exits with status 0 on either path. *)
Definition main (d : fetched) (pdf : renderer) : process :=
  let (events, r) := generate_report d pdf in
  match r with
  | inr _ => {| log := events; exit_status := 0 |}
  | inl e => {| log := events ++ [PrintError e; PrintTraceback e];
                exit_status := 0 |}
  end.

(** ** The direct formulas of the DCF *)

(** The sum of [cf_k / (1 + wacc)^k], the first entry of [cfs] taken at
    exponent [i]. *)
Fixpoint direct_pv (cfs : list Q) (i : nat) (wacc : Q) : Q :=
  match cfs with
  | [] => 0
  | cf :: rest => cf / (1 + wacc) ^ Z.of_nat i + direct_pv rest (S i) wacc
  end.

(** [cf_last * (1 + g) / (wacc - g)], discounted over [years]. *)
Definition direct_terminal (cf_last wacc g : Q) (years : nat) : Q :=
  cf_last * (1 + g) / (wacc - g) / (1 + wacc) ^ Z.of_nat years.

(** ** The blend in binary64 *)

(** Lines 377 and 382 once more, on the machine floats Python computes
    with, to check concrete figures with their rounding. *)
Set Warnings "-inexact-float".

Definition weighted_target_binary64 (bull base bear : float) : float :=
  (bull * 0.35 + base * 0.45 + bear * 0.20)%float.

Definition final_target_binary64 (weighted bull : float) : float :=
  (weighted * 0.6 + bull * 0.4)%float.

(** ** Vocabulary of the statements *)

(** The key [k] is missing from [info], or holds a zero. *)
Definition zero_or_absent (info : dict) (k : string) : Prop :=
  lookup info k = None
  \/ exists q : Q, lookup info k = Some (PyNum q) /\ q == 0.

(** ** Closed forms used in the statements about [calculate_wacc] *)

(** Lines 131-133 on a finite beta. *)
Definition adjusted_beta (b : Q) : Q :=
  if Qltb b 0.5 then 0.75 else if Qltb b 0.7 then 0.7 else b.

(** Lines 145-148 on finite figures. *)
Definition cost_of_debt_of (ie d : Q) : Q :=
  if negb (Qeq_bool ie 0) && negb (Qeq_bool d 0) then Qabs ie / d
  else 0.045 + 0.015.

(** ** Well-formed provider data *)

(** The key [k] is missing from [info], or holds a finite number. *)
Definition finite_or_absent (info : dict) (k : string) : Prop :=
  lookup info k = None \/ exists q : Q, lookup info k = Some (PyNum q).

(** ** [fetch_lly_data] (source lines 54-91) *)

(** What a [yf.Ticker] object answers: each accessor returns or raises. *)
Record ticker : Type := {
  info_of : result (option dict);
  history_of : result (option (list pyval));
  financials_of : result (option frame);
  balance_sheet_of : result (option frame);
  cashflow_of : result (option frame);
  analyst_price_targets_of : result (option dict)
}.

(** [yf.Ticker(symbol)] *)
Definition provider : Type := string -> result ticker.

Record statements : Type := {
  st_financials : option frame;
  st_balance_sheet : option frame;
  st_cashflow : option frame;
  st_analyst_targets : option dict
}.

(** Lines 62-73: four assignments under one [try], each name keeping its
    initial [None] from the first accessor that raises. *)
Definition fetch_statements (lly : ticker) : statements :=
  match financials_of lly with
  | inl _ => {| st_financials := None; st_balance_sheet := None;
                st_cashflow := None; st_analyst_targets := None |}
  | inr f =>
      match balance_sheet_of lly with
      | inl _ => {| st_financials := f; st_balance_sheet := None;
                    st_cashflow := None; st_analyst_targets := None |}
      | inr b =>
          match cashflow_of lly with
          | inl _ => {| st_financials := f; st_balance_sheet := b;
                        st_cashflow := None; st_analyst_targets := None |}
          | inr c =>
              match analyst_price_targets_of lly with
              | inl _ => {| st_financials := f; st_balance_sheet := b;
                            st_cashflow := c; st_analyst_targets := None |}
              | inr a => {| st_financials := f; st_balance_sheet := b;
                            st_cashflow := c; st_analyst_targets := a |}
              end
          end
      end
  end.

Record peer_entry : Type := {
  peer_info : option dict;
  peer_hist : option (list pyval)
}.

Definition peers : list string :=
  ["JNJ"; "PFE"; "MRK"; "ABBV"; "NVO"]%string.

(** Lines 80-84 for one symbol. *)
Definition fetch_peer (yf : provider) (symbol : string) : result peer_entry :=
  stock <- yf symbol ;;
  i <- info_of stock ;;
  h <- history_of stock ;;
  ret {| peer_info := i; peer_hist := h |}.

(** Lines 78-86: the loop over the symbols, [peer_data] growing by one
    key for each symbol whose fetch returns. *)
Fixpoint fetch_peers (yf : provider) (symbols : list string)
    (peer_data : list (string * peer_entry)) : list (string * peer_entry) :=
  match symbols with
  | [] => peer_data
  | symbol :: rest =>
      match fetch_peer yf symbol with
      | inr entry => fetch_peers yf rest (peer_data ++ [(symbol, entry)])
      | inl _ => fetch_peers yf rest peer_data
      end
  end.

(** The tuple [fetch_lly_data] returns, with the exception it printed. *)
Record fetch_result : Type := {
  fr_data : fetched;
  fr_peers : list (string * peer_entry);
  fr_balance_sheet : option frame;
  fr_cashflow : option frame;
  fr_error : option exn
}.

Definition fetch_lly_data (yf : provider) : fetch_result :=
  match (lly <- yf "LLY"%string ;;
         i <- info_of lly ;;
         h <- history_of lly ;;
         ret (lly, i, h)) with
  | inr (lly, i, h) =>
      let st := fetch_statements lly in
      {| fr_data := {| lly_info := i; lly_hist := h;
                       financials := st_financials st;
                       analyst_targets := st_analyst_targets st |};
         fr_peers := fetch_peers yf peers [];
         fr_balance_sheet := st_balance_sheet st;
         fr_cashflow := st_cashflow st;
         fr_error := None |}
  | inl e =>
      {| fr_data := {| lly_info := None; lly_hist := None;
                       financials := None; analyst_targets := None |};
         fr_peers := [];
         fr_balance_sheet := None;
         fr_cashflow := None;
         fr_error := Some e |}
  end.

(** A peer symbol is kept when its ticker, info and history all return. *)
Definition peer_available (yf : provider) (symbol : string) : bool :=
  match fetch_peer yf symbol with
  | inr _ => true
  | inl _ => false
  end.

(** The script from the fetch to the exit status. *)
Definition run (yf : provider) (pdf : renderer) : process :=
  main (fr_data (fetch_lly_data yf)) pdf.

(** * Properties *)

(** ** Evaluation helpers *)

Ltac py_eval :=
  cbn [bind ret raise try_except py_add py_sub py_mul py_arith py_pow
       py_lt py_gt py_max py_abs truthy isna is_none].

Lemma Qltb_lt (a b : Q) : Qltb a b = true <-> a < b.
Proof.
  unfold Qltb. rewrite negb_true_iff. split; intro H.
  - apply Qnot_le_lt. intro L. apply Qle_bool_iff in L. congruence.
  - destruct (Qle_bool b a) eqn:E; [|reflexivity].
    apply Qle_bool_iff in E. exfalso. apply (Qlt_not_le _ _ H E).
Qed.

Lemma Qltb_ge (a b : Q) : Qltb a b = false <-> b <= a.
Proof.
  unfold Qltb. rewrite negb_false_iff. apply Qle_bool_iff.
Qed.

Lemma Qeq_bool_false (a b : Q) : ~ a == b -> Qeq_bool a b = false.
Proof.
  intro H. destruct (Qeq_bool a b) eqn:E; [|reflexivity].
  apply Qeq_bool_iff in E. contradiction.
Qed.

Lemma py_div_num (x y : Q) :
  ~ y == 0 -> py_div (PyNum x) (PyNum y) = ret (PyNum (x / y)).
Proof.
  intro H. unfold py_div. now rewrite (Qeq_bool_false _ _ H).
Qed.

Lemma py_div_zero (a : pyval) (y : Q) :
  y == 0 -> exists e, py_div a (PyNum y) = raise e.
Proof.
  intro H. apply Qeq_bool_iff in H. unfold py_div.
  destruct a; rewrite ?H; eauto.
Qed.

Lemma quotient_pos (k s : Q) : 0 < k -> 0 < s -> 0 < k / s.
Proof.
  intros Hk Hs. apply Qlt_shift_div_l; [exact Hs|]. lra.
Qed.

(** ** Scenario blending *)

Lemma weighted_target_num (bull base bear : Q) :
  weighted_target (PyNum bull) (PyNum base) (PyNum bear)
  = ret (PyNum (bull * 0.35 + base * 0.45 + bear * 0.20)).
Proof. reflexivity. Qed.

Lemma final_target_num (w bull : Q) :
  final_target (PyNum w) (PyNum bull) = ret (PyNum (w * 0.6 + bull * 0.4)).
Proof. reflexivity. Qed.

Lemma scenario_blend_num (bull base bear : Q) :
  scenario_blend (PyNum bull) (PyNum base) (PyNum bear)
  = ret {| target_price_weighted :=
             PyNum (bull * 0.35 + base * 0.45 + bear * 0.20);
           target_price :=
             PyNum ((bull * 0.35 + base * 0.45 + bear * 0.20) * 0.6
                    + bull * 0.4) |}.
Proof. reflexivity. Qed.

(** C9. For every triple of scenario prices the blender returns
    weighted_target = bull*0.35 + base*0.45 + bear*0.20 and
    final_target = 0.6*weighted_target + 0.4*bull; at bull = 1200,
    base = 1000, bear = 800 these are 1030 and 1098. *)
Theorem scenario_blend_weights :
  (forall bull base bear : Q,
     exists w t : Q,
       scenario_blend (PyNum bull) (PyNum base) (PyNum bear)
       = ret {| target_price_weighted := PyNum w; target_price := PyNum t |}
       /\ w == bull * 0.35 + base * 0.45 + bear * 0.20
       /\ t == 0.6 * w + 0.4 * bull)
  /\ (exists w t : Q,
       scenario_blend (PyNum 1200) (PyNum 1000) (PyNum 800)
       = ret {| target_price_weighted := PyNum w; target_price := PyNum t |}
       /\ w == 1030 /\ t == 1098).
Proof.
  split.
  - intros bull base bear. do 2 eexists.
    split; [apply scenario_blend_num|]. split; [reflexivity|ring].
  - do 2 eexists. split; [apply scenario_blend_num|].
    split; reflexivity.
Qed.

(** C10. The final target is the convex combination
    0.61*bull + 0.27*base + 0.12*bear: the three effective weights are
    positive and sum to 1, so the target lies between the least and the
    greatest scenario price. *)
Theorem final_target_convex (bull base bear : Q) :
  exists t : Q,
    (b <- scenario_blend (PyNum bull) (PyNum base) (PyNum bear) ;;
     ret (target_price b)) = ret (PyNum t)
    /\ t == 0.61 * bull + 0.27 * base + 0.12 * bear
    /\ 0 < 0.61 /\ 0 < 0.27 /\ 0 < 0.12
    /\ 0.61 + 0.27 + 0.12 == 1
    /\ Qmin (Qmin bull base) bear <= t <= Qmax (Qmax bull base) bear.
Proof.
  eexists. split; [rewrite scenario_blend_num; reflexivity|].
  assert (E : (bull * 0.35 + base * 0.45 + bear * 0.20) * 0.6 + bull * 0.4
              == 0.61 * bull + 0.27 * base + 0.12 * bear) by ring.
  split; [exact E|].
  repeat (split; [reflexivity|]).
  rewrite E.
  pose proof (Q.le_min_l (Qmin bull base) bear) as L1.
  pose proof (Q.le_min_r (Qmin bull base) bear) as L2.
  pose proof (Q.le_min_l bull base) as L3.
  pose proof (Q.le_min_r bull base) as L4.
  pose proof (Q.le_max_l (Qmax bull base) bear) as U1.
  pose proof (Q.le_max_r (Qmax bull base) bear) as U2.
  pose proof (Q.le_max_l bull base) as U3.
  pose proof (Q.le_max_r bull base) as U4.
  set (lo := Qmin (Qmin bull base) bear) in *.
  set (hi := Qmax (Qmax bull base) bear) in *.
  set (m := Qmin bull base) in *. set (M := Qmax bull base) in *.
  split; lra.
Qed.

(** In binary64 too, the scenario prices 1200, 1000 and 800 blend to
    exactly 1030 and 1098. *)
Example scenario_blend_binary64 :
  weighted_target_binary64 1200 1000 800 = 1030%float
  /\ final_target_binary64 (weighted_target_binary64 1200 1000 800) 1200
     = 1098%float.
Proof. split; vm_compute; reflexivity. Qed.

(** The exact identities hold in binary64 up to rounding only: with all
    three prices at 1.7 the blend comes out one unit in the last place
    above 1.7. *)
Remark final_target_binary64_rounding :
  final_target_binary64 (weighted_target_binary64 1.7 1.7 1.7) 1.7
  = 1.7000000000000002%float.
Proof. vm_compute. reflexivity. Qed.

(** ** Discounted cash flow *)

Section Discounting.

Variable wacc : Q.
Hypothesis base_nonzero : ~ 1 + wacc == 0.

Lemma factor_nonzero (i : nat) : ~ (1 + wacc) ^ Z.of_nat i == 0.
Proof. apply Qpower_not_0. exact base_nonzero. Qed.

(** The loop never raises on finite cash flows and accumulates the
    direct sum. *)
Lemma discount_loop_num (cfs : list Q) :
  forall (i : nat) (acc : Q),
  exists q : Q,
    discount_loop (map PyNum cfs) i (PyNum wacc) (PyNum acc)
    = ret (PyNum q)
    /\ q == acc + direct_pv cfs i wacc.
Proof.
  induction cfs as [|cf rest IH]; intros i acc.
  - exists acc. split; [reflexivity|]. simpl. ring.
  - cbn [map discount_loop]. py_eval.
    rewrite (py_div_num _ _ (factor_nonzero i)). py_eval.
    destruct (IH (S i) (acc + cf / (1 + wacc) ^ Z.of_nat i)) as (q & E & Hq).
    exists q. split; [exact E|].
    rewrite Hq. cbn [direct_pv]. ring.
Qed.

Lemma last_item_num (cfs : list Q) :
  cfs <> [] -> last_item (map PyNum cfs) = ret (PyNum (last cfs 0)).
Proof.
  induction cfs as [|c rest IH]; [congruence|]. intros _.
  destruct rest as [|c' rest']; [reflexivity|].
  change (last_item (map PyNum (c :: c' :: rest')))
    with (last_item (map PyNum (c' :: rest'))).
  rewrite IH by discriminate. reflexivity.
Qed.

(** With a non-zero spread, the whole body returns the three direct
    figures. *)
Lemma calculate_dcf_num (cfs : list Q) (g : Q) (years : nat) :
  cfs <> [] -> ~ wacc - g == 0 ->
  exists ev pv tv : Q,
    calculate_dcf (map PyNum cfs) (PyNum wacc) (PyNum g) years
    = (PyNum ev, PyNum pv, PyNum tv)
    /\ pv == direct_pv cfs 1 wacc
    /\ tv == direct_terminal (last cfs 0) wacc g years
    /\ ev == pv + tv.
Proof.
  intros Hne Hspread.
  destruct (discount_loop_num cfs 1 0) as (pv & Epv & Hpv).
  unfold calculate_dcf, calculate_dcf_body.
  rewrite Epv, (last_item_num cfs Hne). py_eval.
  rewrite (py_div_num _ _ Hspread). py_eval.
  rewrite (py_div_num _ _ (factor_nonzero years)). py_eval.
  do 3 eexists. split; [reflexivity|].
  split; [rewrite Hpv; ring|].
  split; reflexivity.
Qed.

End Discounting.

(** Equal rates: the zero spread raises and the handler returns the three
    [None], whatever the cash flows are. *)
Lemma calculate_dcf_zero_spread (cfs : list pyval) (wacc g : Q) (years : nat) :
  wacc == g ->
  calculate_dcf cfs (PyNum wacc) (PyNum g) years = (PyNone, PyNone, PyNone).
Proof.
  intro H. unfold calculate_dcf, calculate_dcf_body.
  destruct (discount_loop cfs 1 (PyNum wacc) (PyNum 0)) as [e|pv];
    [reflexivity|].
  destruct (last_item cfs) as [e|v]; [reflexivity|]. py_eval.
  assert (Z0 : wacc - g == 0) by (rewrite H; ring).
  destruct v as [| |c]; py_eval; try reflexivity.
  - destruct (py_div_zero PyNaN _ Z0) as (e & E). now rewrite E.
  - destruct (py_div_zero (PyNum (c * (1 + g))) _ Z0) as (e & E).
    now rewrite E.
Qed.

(** C8. For five cash flows and wacc above the terminal growth g (a rate
    of at least -100%, as the 3.5% of the pipeline and the 3% default),
    the DCF returns the direct figures: pv_cf is the sum of
    cf_i / (1 + wacc)^i for i = 1..5, pv_terminal is
    cf_5 * (1 + g) / (wacc - g) discounted by (1 + wacc)^5, and the
    enterprise value is their sum. *)
Theorem calculate_dcf_direct_formula (c1 c2 c3 c4 c5 wacc g : Q) :
  -1 <= g -> g < wacc ->
  exists ev pv tv : Q,
    calculate_dcf [PyNum c1; PyNum c2; PyNum c3; PyNum c4; PyNum c5]
                  (PyNum wacc) (PyNum g) 5
    = (PyNum ev, PyNum pv, PyNum tv)
    /\ pv == c1 / (1 + wacc) ^ 1 + c2 / (1 + wacc) ^ 2 + c3 / (1 + wacc) ^ 3
             + c4 / (1 + wacc) ^ 4 + c5 / (1 + wacc) ^ 5
    /\ tv == c5 * (1 + g) / (wacc - g) / (1 + wacc) ^ 5
    /\ ev == pv + tv.
Proof.
  intros Hg Hw.
  assert (Hbase : ~ 1 + wacc == 0) by lra.
  assert (Hspread : ~ wacc - g == 0) by lra.
  destruct (calculate_dcf_num wacc Hbase [c1; c2; c3; c4; c5] g 5)
    as (ev & pv & tv & E & Hpv & Htv & Hev); [discriminate|exact Hspread|].
  exists ev, pv, tv. split; [exact E|].
  split; [|split; [exact Htv|exact Hev]].
  rewrite Hpv. cbn [direct_pv Z.of_nat Pos.of_succ_nat Pos.succ].
  ring.
Qed.

Lemma calculate_dcf_direct_formula_witness :
  exists ev pv tv : Q,
    calculate_dcf [PyNum 10e9; PyNum 11e9; PyNum 12e9; PyNum 13e9;
                   PyNum 14e9] (PyNum 0.095) (PyNum 0.035) 5
    = (PyNum ev, PyNum pv, PyNum tv)
    /\ pv == 10e9 / (1 + 0.095) ^ 1 + 11e9 / (1 + 0.095) ^ 2
             + 12e9 / (1 + 0.095) ^ 3 + 13e9 / (1 + 0.095) ^ 4
             + 14e9 / (1 + 0.095) ^ 5
    /\ tv == 14e9 * (1 + 0.035) / (0.095 - 0.035) / (1 + 0.095) ^ 5
    /\ ev == pv + tv.
Proof.
  apply (calculate_dcf_direct_formula 10e9 11e9 12e9 13e9 14e9 0.095 0.035);
    vm_compute; congruence.
Defined.

Lemma quotient_pos_neg (a s : Q) : 0 < a -> s < 0 -> a / s < 0.
Proof.
  intros Ha Hs.
  assert (E : a / s == - (a / - s)) by (field; lra).
  assert (P : 0 < a / - s) by (apply quotient_pos; lra).
  rewrite E. lra.
Qed.

Lemma quotient_neg_pos (a s : Q) : a < 0 -> 0 < s -> a / s < 0.
Proof.
  intros Ha Hs.
  assert (E : a / s == - (- a / s)) by (field; lra).
  assert (P : 0 < - a / s) by (apply quotient_pos; lra).
  rewrite E. lra.
Qed.

(** C1, as the code has it.  For a non-empty sequence of finite cash flows
    and wacc <= terminal growth g, wacc <> -1: equal rates make the
    division raise and the handler return the three [None]; with
    wacc < g nothing is detected and the call returns ordinary numbers,
    the terminal component being cf_last * (1 + g) / (wacc - g)
    discounted over [years], which is negative when -1 < wacc and the
    last cash flow is positive. *)
Theorem calculate_dcf_degenerate (cfs : list Q) (wacc g : Q) (years : nat) :
  cfs <> [] -> ~ 1 + wacc == 0 -> wacc <= g ->
  (wacc == g ->
   calculate_dcf (map PyNum cfs) (PyNum wacc) (PyNum g) years
   = (PyNone, PyNone, PyNone))
  /\ (wacc < g ->
      exists ev pv tv : Q,
        calculate_dcf (map PyNum cfs) (PyNum wacc) (PyNum g) years
        = (PyNum ev, PyNum pv, PyNum tv)
        /\ pv == direct_pv cfs 1 wacc
        /\ tv == direct_terminal (last cfs 0) wacc g years
        /\ ev == pv + tv
        /\ (-1 < wacc -> 0 < last cfs 0 -> tv < 0)).
Proof.
  intros Hne Hbase _. split.
  - apply calculate_dcf_zero_spread.
  - intro Hlt.
    destruct (calculate_dcf_num wacc Hbase cfs g years Hne)
      as (ev & pv & tv & E & Hpv & Htv & Hev); [lra|].
    exists ev, pv, tv. repeat (split; [assumption|]).
    intros Hw Hlast. rewrite Htv. unfold direct_terminal.
    apply quotient_neg_pos; [|apply Qpower_0_lt; lra].
    apply quotient_pos_neg; [|lra].
    apply Qmult_lt_0_compat; lra.
Qed.

Lemma calculate_dcf_degenerate_witness :
  calculate_dcf (map PyNum [10e9; 11e9; 12e9; 13e9; 14e9])
                (PyNum 0.035) (PyNum 0.035) 5
  = (PyNone, PyNone, PyNone)
  /\ exists ev pv tv : Q,
       calculate_dcf (map PyNum [10e9; 11e9; 12e9; 13e9; 14e9])
                     (PyNum 0.03) (PyNum 0.035) 5
       = (PyNum ev, PyNum pv, PyNum tv)
       /\ pv == direct_pv [10e9; 11e9; 12e9; 13e9; 14e9] 1 0.03
       /\ tv == direct_terminal (last [10e9; 11e9; 12e9; 13e9; 14e9] 0)
                                0.03 0.035 5
       /\ ev == pv + tv
       /\ tv < 0.
Proof.
  assert (Hne : [10e9; 11e9; 12e9; 13e9; 14e9] <> []) by discriminate.
  split.
  - assert (Hbase : ~ 1 + 0.035 == 0) by (vm_compute; congruence).
    assert (Hle : 0.035 <= 0.035) by (vm_compute; congruence).
    apply (proj1 (calculate_dcf_degenerate
                    [10e9; 11e9; 12e9; 13e9; 14e9] 0.035 0.035 5
                    Hne Hbase Hle)).
    reflexivity.
  - assert (Hbase : ~ 1 + 0.03 == 0) by (vm_compute; congruence).
    assert (Hle : 0.03 <= 0.035) by (vm_compute; congruence).
    assert (Hlt : 0.03 < 0.035) by reflexivity.
    destruct (proj2 (calculate_dcf_degenerate
                       [10e9; 11e9; 12e9; 13e9; 14e9] 0.03 0.035 5
                       Hne Hbase Hle) Hlt)
      as (ev & pv & tv & E & Hpv & Htv & Hev & Hneg).
    exists ev, pv, tv. repeat (split; [assumption|]).
    apply Hneg; reflexivity.
Defined.

(** At wacc = 0.03 under g = 0.035 the call returns plain numbers, with a
    negative terminal component and a negative enterprise value. *)
Lemma calculate_dcf_unflagged :
  exists ev pv tv : Q,
    calculate_dcf [PyNum 10e9; PyNum 11e9; PyNum 12e9; PyNum 13e9;
                   PyNum 14e9] (PyNum 0.03) (PyNum 0.035) 5
    = (PyNum ev, PyNum pv, PyNum tv)
    /\ tv < 0 /\ ev < 0.
Proof.
  do 3 eexists. split; [vm_compute; reflexivity|].
  split; vm_compute; reflexivity.
Qed.

(** ** Discount rate *)

Lemma zero_or_absent_get (info : dict) (k : string) :
  zero_or_absent info k ->
  exists q : Q, get info k (PyNum 0) = PyNum q /\ q == 0.
Proof.
  unfold get. intros [E | (q & E & Hq)]; rewrite E.
  - exists 0. split; reflexivity.
  - exists q. split; [reflexivity|exact Hq].
Qed.

(** A convex mix of a cost of equity in (0, 0.5) and a cost of debt in
    (0, 0.6] stays in (0, 0.5) once the tax shield is applied. *)
Lemma weighted_cost_bounds (mc nd coe cod : Q) :
  0 <= mc -> 0 <= nd -> 0 < mc + nd ->
  0 < coe -> coe < 0.5 -> 0 < cod -> cod <= 0.6 ->
  0 < mc / (mc + nd) * coe + nd / (mc + nd) * cod * (1 - 0.21) < 0.5.
Proof.
  intros Hmc Hnd Htv Hcoe Hcoe' Hcod Hcod'.
  pose proof (Qinv_lt_0_compat _ Htv) as Hi.
  assert (Hone : (mc + nd) * / (mc + nd) == 1)
    by (apply Qmult_inv_r; lra).
  unfold Qdiv. set (i := / (mc + nd)) in *.
  assert (Ha : 0 <= mc * i) by (apply Qmult_le_0_compat; lra).
  assert (Hb : 0 <= nd * i) by (apply Qmult_le_0_compat; lra).
  assert (Hsum : mc * i + nd * i == 1) by (rewrite <- Hone; ring).
  set (a := mc * i) in *. set (b := nd * i) in *.
  assert (P1 : 0 <= a * coe) by (apply Qmult_le_0_compat; lra).
  assert (P2 : a * coe <= a * 0.5).
  { rewrite (Qmult_comm a coe), (Qmult_comm a 0.5).
    apply Qmult_le_compat_r; lra. }
  assert (P3 : 0 <= b * cod) by (apply Qmult_le_0_compat; lra).
  assert (P4 : b * cod <= b * 0.6).
  { rewrite (Qmult_comm b cod), (Qmult_comm b 0.6).
    apply Qmult_le_compat_r; assumption. }
  destruct (Qlt_le_dec 0 a) as [Pa | Za].
  - assert (0 < a * coe) by (apply Qmult_lt_0_compat; assumption).
    assert (a * coe < a * 0.5) by (apply Qmult_lt_l; assumption).
    split; lra.
  - assert (Pb : 0 < b) by lra.
    assert (0 < b * cod) by (apply Qmult_lt_0_compat; assumption).
    split; lra.
Qed.

(** C3, as the code has it.  For finite inputs with market_cap >= 0,
    total_debt >= 0, total_cash <= total_debt, beta <= 7.5 and
    |interest_expense| <= 0.6 * total_debt, the estimator returns a value
    strictly between 0 and 0.5. *)
Theorem calculate_wacc_bounded (info : dict) (b d c mc ie : Q) :
  get info "beta" (PyNum 0.8) = PyNum b ->
  get info "totalDebt" (PyNum 0) = PyNum d ->
  get info "totalCash" (PyNum 0) = PyNum c ->
  get info "marketCap" (PyNum 0) = PyNum mc ->
  get info "interestExpense" (PyNum 0) = PyNum ie ->
  0 <= mc -> 0 <= d -> c <= d -> b <= 7.5 -> Qabs ie <= 0.6 * d ->
  exists w : Q, calculate_wacc info = PyNum w /\ 0 < w /\ w < 0.5.
Proof.
  intros Eb Ed Ec Emc Eie Hmc Hd Hc Hb Hie.
  unfold calculate_wacc, calculate_wacc_with, calculate_wacc_body.
  rewrite Eb, Ed, Ec, Emc, Eie. py_eval.
  set (beta := if Qltb b 0.5 then PyNum 0.75
               else if Qltb b 0.7 then PyNum 0.7 else PyNum b).
  assert (Hbeta : exists x, beta = PyNum x /\ 0.7 <= x /\ x <= 7.5).
  { unfold beta. destruct (Qltb b 0.5) eqn:L5.
    - exists 0.75. split; [reflexivity|]. split; lra.
    - destruct (Qltb b 0.7) eqn:L7.
      + exists 0.7. split; [reflexivity|]. split; lra.
      + apply Qltb_ge in L7. exists b. split; [reflexivity|]. split; lra. }
  clearbody beta. destruct Hbeta as (x & -> & Hx1 & Hx2). py_eval.
  set (cod := if negb (Qeq_bool ie 0) && negb (Qeq_bool d 0)
              then py_div (PyNum (Qabs ie)) (PyNum d)
              else ret (PyNum (0.045 + 0.015))).
  assert (Hcod : exists y, cod = ret (PyNum y) /\ 0 < y /\ y <= 0.6).
  { unfold cod. destruct (Qeq_bool d 0) eqn:D0.
    - rewrite andb_false_r. eexists. split; [reflexivity|]. split; lra.
    - apply Qeq_bool_neq in D0. destruct (Qeq_bool ie 0) eqn:I0; cbn [negb andb].
      + eexists. split; [reflexivity|]. split; lra.
      + apply Qeq_bool_neq in I0. rewrite (py_div_num _ _ D0).
        eexists. split; [reflexivity|].
        assert (Hd' : 0 < d) by lra. split.
        * apply quotient_pos; [|exact Hd'].
          apply Qabs_case; intros; lra.
        * apply Qle_shift_div_r; [exact Hd'|exact Hie]. }
  clearbody cod. destruct Hcod as (y & -> & Hy1 & Hy2). py_eval.
  destruct (Qltb 0 (mc + (d - c))) eqn:T.
  - apply Qltb_lt in T.
    assert (Hnz : ~ mc + (d - c) == 0) by lra.
    rewrite !(py_div_num _ _ Hnz). py_eval.
    eexists. split; [reflexivity|].
    apply weighted_cost_bounds; lra.
  - exists 0.085. split; [reflexivity|]. split; lra.
Qed.

Lemma calculate_wacc_bounded_witness :
  exists w : Q,
    calculate_wacc [("beta"%string, PyNum 0.8);
                    ("totalDebt"%string, PyNum 30e9);
                    ("totalCash"%string, PyNum 3e9);
                    ("marketCap"%string, PyNum 980e9);
                    ("interestExpense"%string, PyNum (-0.6e9))]
    = PyNum w /\ 0 < w /\ w < 0.5.
Proof.
  apply (calculate_wacc_bounded _ 0.8 30e9 3e9 980e9 (-0.6e9));
    vm_compute; congruence.
Defined.

(** Outside those bounds the result leaves (0, 0.5): a beta of 8 gives
    0.525; cash close to the market capitalisation, with no debt, gives
    4.6074; an interest charge of 80% of the debt gives more than 0.5;
    cash above debt with a large interest charge gives a negative rate. *)
Lemma calculate_wacc_out_of_range :
  (exists w : Q,
     calculate_wacc [("beta"%string, PyNum 8);
                     ("marketCap"%string, PyNum 100e9)] = PyNum w
     /\ 0.5 <= w)
  /\ (exists w : Q,
        calculate_wacc [("totalCash"%string, PyNum 99e9);
                        ("marketCap"%string, PyNum 100e9)] = PyNum w
        /\ 0.5 <= w)
  /\ (exists w : Q,
        calculate_wacc [("totalDebt"%string, PyNum 10e9);
                        ("marketCap"%string, PyNum 1e9);
                        ("interestExpense"%string, PyNum 8e9)] = PyNum w
        /\ 0.5 <= w)
  /\ (exists w : Q,
        calculate_wacc [("beta"%string, PyNum 1);
                        ("totalDebt"%string, PyNum 1e9);
                        ("totalCash"%string, PyNum 50e9);
                        ("marketCap"%string, PyNum 100e9);
                        ("interestExpense"%string, PyNum 1e9)] = PyNum w
        /\ w <= 0).
Proof.
  repeat split; eexists;
    (split; [vm_compute; reflexivity|vm_compute; congruence]).
Qed.

(** C4, as the code has it.  When market_cap, total_debt and total_cash
    are each zero or absent, the estimator returns exactly 0.085, whatever
    beta and interest_expense hold. *)
Theorem calculate_wacc_default (info : dict) :
  zero_or_absent info "marketCap" ->
  zero_or_absent info "totalDebt" ->
  zero_or_absent info "totalCash" ->
  calculate_wacc info = PyNum 0.085.
Proof.
  intros Hmc Hd Hc.
  destruct (zero_or_absent_get _ _ Hmc) as (mc & Emc & Zmc).
  destruct (zero_or_absent_get _ _ Hd) as (d & Ed & Zd).
  destruct (zero_or_absent_get _ _ Hc) as (c & Ec & Zc).
  unfold calculate_wacc, calculate_wacc_with, calculate_wacc_body.
  rewrite Emc, Ed, Ec.
  assert (Td : truthy (PyNum d) = false).
  { cbn [truthy]. apply Qeq_bool_iff in Zd. now rewrite Zd. }
  rewrite Td, andb_false_r.
  assert (Htv : Qltb 0 (mc + (d - c)) = false).
  { apply Qltb_ge. rewrite Zmc, Zd, Zc. lra. }
  destruct (get info "beta" (PyNum 0.8)) as [| |b]; py_eval;
    try reflexivity.
  - rewrite Htv. reflexivity.
  - destruct (Qltb b 0.5), (Qltb b 0.7); py_eval; rewrite Htv; reflexivity.
Qed.

Lemma calculate_wacc_default_witness :
  calculate_wacc [("beta"%string, PyNum 0.4);
                  ("totalDebt"%string, PyNum 0);
                  ("interestExpense"%string, PyNone)]
  = PyNum 0.085.
Proof.
  apply calculate_wacc_default.
  - left. reflexivity.
  - right. exists 0. split; reflexivity.
  - left. reflexivity.
Defined.

(** A missing input alone does not select the default: with only the
    market capitalisation known, beta falls back to 0.8 and the result is
    the cost of equity 0.045 + 0.8 * 0.06 = 0.093. *)
Lemma calculate_wacc_missing_inputs :
  lookup [("marketCap"%string, PyNum 100e9)] "beta" = None
  /\ lookup [("marketCap"%string, PyNum 100e9)] "interestExpense" = None
  /\ exists w : Q,
       calculate_wacc [("marketCap"%string, PyNum 100e9)] = PyNum w
       /\ w == 0.093 /\ ~ w == 0.085.
Proof.
  split; [reflexivity|]. split; [reflexivity|].
  eexists. split; [vm_compute; reflexivity|].
  split; vm_compute; congruence.
Qed.

(** ** Earnings path *)

(** The starting margin is a number in (0.30, 0.40] for every [info]. *)
Lemma operating_margin_2024_range (info : option dict) :
  exists m : Q,
    operating_margin_2024 info = ret (PyNum m) /\ 0.30 < m /\ m <= 0.40.
Proof.
  assert (D : exists m : Q,
             @ret pyval (PyNum 0.38) = ret (PyNum m) /\ 0.30 < m /\ m <= 0.40).
  { exists 0.38. split; [reflexivity|]. split; lra. }
  destruct info as [i|]; [|exact D]. unfold operating_margin_2024.
  destruct (dict_truthy i); [|exact D]. cbn [andb].
  destruct (get i "operatingMargins" PyNone) as [| |x]; py_eval;
    try exact D.
  destruct (negb (Qeq_bool x 0)); [|exact D].
  destruct (Qltb 0.40 x) eqn:H40; [exact D|].
  destruct (Qltb 0.30 x) eqn:H30; [|exact D].
  apply Qltb_ge in H40. apply Qltb_lt in H30.
  exists x. split; [reflexivity|]. split; assumption.
Qed.

Lemma naive_eps_num (r m s : Q) :
  ~ s == 0 ->
  naive_eps (PyNum r) (PyNum m) (PyNum s) = ret (PyNum (r * m * 1e9 / s)).
Proof.
  intro H. unfold naive_eps. py_eval. apply py_div_num. exact H.
Qed.

(** C5. For a positive market capitalisation and price, any margin data
    and any base-year EPS, the forecast eps_2024..eps_2027 is returned
    and is non-decreasing.  When the computed eps_2025 is below eps_2024
    the forward path is eps_2024 times 1.10, then 1.25, then 1.20;
    otherwise eps_2025 is kept, eps_2026 is raised to 1.20 * eps_2025
    only if it is below eps_2025, and eps_2027 to 1.15 * eps_2026 only if
    it is below eps_2026. *)
Theorem eps_path_monotone (info : option dict) (mc cp fe te r24 : Q) :
  0 < mc -> 0 < cp ->
  exists m e25 e26 e27 : Q,
    operating_margin_2024 info = ret (PyNum m)
    /\ let s := mc / cp in
       let e24 := if Qeq_bool fe 0 then te else fe in
       let n25 := 59.5 * (m + 0.01) * 1e9 / s in
       let n26 := 59.5 * 1.28 * (m + 0.01 + 0.01) * 1e9 / s in
       let n27 := 59.5 * 1.28 * 1.22 * (m + 0.01 + 0.01 + 0.005) * 1e9 / s in
       earnings_forecast
         {| current_price := PyNum cp; market_cap := PyNum mc;
            revenue_2024 := PyNum r24; ttm_eps := PyNum te;
            forward_eps := PyNum fe |} info
       = ret {| shares_outstanding := PyNum s; eps_2024 := PyNum e24;
                eps_2025 := PyNum e25; eps_2026 := PyNum e26;
                eps_2027 := PyNum e27 |}
       /\ e24 <= e25 /\ e25 <= e26 /\ e26 <= e27
       /\ (n25 < e24 ->
           e25 == e24 * 1.10 /\ e26 == e25 * 1.25 /\ e27 == e26 * 1.20)
       /\ (e24 <= n25 ->
           e25 == n25
           /\ (n26 < e25 -> e26 == e25 * 1.20)
           /\ (e25 <= n26 -> e26 == n26)
           /\ (n27 < e26 -> e27 == e26 * 1.15)
           /\ (e26 <= n27 -> e27 == n27)).
Proof.
  intros Hmc Hcp.
  destruct (operating_margin_2024_range info) as (m & Em & Hm1 & Hm2).
  assert (Hcp0 : ~ cp == 0) by lra.
  pose proof (quotient_pos _ _ Hmc Hcp) as Hs.
  assert (Hs0 : ~ mc / cp == 0) by lra.
  exists m.
  unfold earnings_forecast, revenue_model, margin_model, eps_model.
  rewrite Em.
  cbn [bind ret py_add py_mul py_arith revenue_2025 revenue_2026 revenue_2027
       op_margin_2025 op_margin_2026 op_margin_2027 market_cap current_price
       forward_eps ttm_eps revenue_2024 truthy].
  rewrite (py_div_num _ _ Hcp0). cbn [bind ret].
  rewrite !(naive_eps_num _ _ _ Hs0). cbn [bind ret].
  change 1e9 with 1000000000.
  set (s := mc / cp) in *.
  assert (P25 : 0 < 59.5 * (m + 0.01) * 1000000000 / s)
    by (apply quotient_pos; [lra|exact Hs]).
  assert (P26 : 0 < 59.5 * 1.28 * (m + 0.01 + 0.01) * 1000000000 / s)
    by (apply quotient_pos; [lra|exact Hs]).
  assert (P27 : 0 < 59.5 * 1.28 * 1.22 * (m + 0.01 + 0.01 + 0.005)
                    * 1000000000 / s)
    by (apply quotient_pos; [lra|exact Hs]).
  set (n25 := 59.5 * (m + 0.01) * 1000000000 / s) in *.
  set (n26 := 59.5 * 1.28 * (m + 0.01 + 0.01) * 1000000000 / s) in *.
  set (n27 := 59.5 * 1.28 * 1.22 * (m + 0.01 + 0.01 + 0.005)
              * 1000000000 / s) in *.
  assert (E24 : (if negb (Qeq_bool fe 0) then PyNum fe else PyNum te)
                = PyNum (if Qeq_bool fe 0 then te else fe))
    by (destruct (Qeq_bool fe 0); reflexivity).
  rewrite E24. set (e24 := if Qeq_bool fe 0 then te else fe).
  py_eval. clearbody n25 n26 n27 e24. clear E24.
  destruct (Qltb n25 e24) eqn:D25.
  - apply Qltb_lt in D25.
    exists (e24 * 1.10), (e24 * 1.10 * 1.25), (e24 * 1.10 * 1.25 * 1.20).
    repeat split; try reflexivity; lra.
  - apply Qltb_ge in D25.
    destruct (Qltb n26 n25) eqn:D26; py_eval.
    + apply Qltb_lt in D26.
      destruct (Qltb n27 (n25 * 1.20)) eqn:D27; py_eval.
      * apply Qltb_lt in D27.
        exists n25, (n25 * 1.20), (n25 * 1.20 * 1.15).
        repeat split; try reflexivity; lra.
      * apply Qltb_ge in D27.
        exists n25, (n25 * 1.20), n27.
        repeat split; try reflexivity; lra.
    + apply Qltb_ge in D26.
      destruct (Qltb n27 n26) eqn:D27; py_eval.
      * apply Qltb_lt in D27.
        exists n25, n26, (n26 * 1.15).
        repeat split; try reflexivity; lra.
      * apply Qltb_ge in D27.
        exists n25, n26, n27.
        repeat split; try reflexivity; lra.
Qed.

Lemma eps_path_monotone_witness :
  exists m e25 e26 e27 : Q,
    operating_margin_2024 (Some [("operatingMargins"%string, PyNum 0.483)])
    = ret (PyNum m)
    /\ let s := 980e9 / 1030.05 in
       let e24 := if Qeq_bool 22.66 0 then 20.45 else 22.66 in
       let n25 := 59.5 * (m + 0.01) * 1e9 / s in
       let n26 := 59.5 * 1.28 * (m + 0.01 + 0.01) * 1e9 / s in
       let n27 := 59.5 * 1.28 * 1.22 * (m + 0.01 + 0.01 + 0.005) * 1e9 / s in
       earnings_forecast
         {| current_price := PyNum 1030.05; market_cap := PyNum 980e9;
            revenue_2024 := PyNum 45.0; ttm_eps := PyNum 20.45;
            forward_eps := PyNum 22.66 |}
         (Some [("operatingMargins"%string, PyNum 0.483)])
       = ret {| shares_outstanding := PyNum s; eps_2024 := PyNum e24;
                eps_2025 := PyNum e25; eps_2026 := PyNum e26;
                eps_2027 := PyNum e27 |}
       /\ e24 <= e25 /\ e25 <= e26 /\ e26 <= e27
       /\ (n25 < e24 ->
           e25 == e24 * 1.10 /\ e26 == e25 * 1.25 /\ e27 == e26 * 1.20)
       /\ (e24 <= n25 ->
           e25 == n25
           /\ (n26 < e25 -> e26 == e25 * 1.20)
           /\ (e25 <= n26 -> e26 == n26)
           /\ (n27 < e26 -> e27 == e26 * 1.15)
           /\ (e26 <= n27 -> e27 == n27)).
Proof.
  apply (eps_path_monotone
           (Some [("operatingMargins"%string, PyNum 0.483)])
           980e9 1030.05 22.66 20.45 45.0);
    vm_compute; reflexivity.
Defined.

(** ** Revenue forecast *)

Lemma revenue_model_num (r24 : Q) :
  revenue_model (PyNum r24)
  = ret {| revenue_2025 := PyNum 59.5;
           revenue_2026 := PyNum (59.5 * 1.28);
           revenue_2027 := PyNum (59.5 * 1.28 * 1.22);
           glp1_2024 := PyNum (r24 * 0.45);
           glp1_2025 := PyNum (59.5 * 0.55);
           glp1_2026 := PyNum (59.5 * 1.28 * 0.60);
           glp1_2027 := PyNum (59.5 * 1.28 * 1.22 * 0.62) |}.
Proof. reflexivity. Qed.

(** C6, as the code has it.  For every base-year revenue below the fixed
    2025 guidance figure 59.5 (the fallback 45.0 included), the forecast
    revenue_2024 < revenue_2025 < revenue_2026 < revenue_2027 is strictly
    increasing, and the segment revenues are the totals times the shares
    0.45 <= 0.55 <= 0.60 <= 0.62. *)
Theorem revenue_forecast_increasing (r24 : Q) :
  r24 < 59.5 ->
  exists r25 r26 r27 g24 g25 g26 g27 : Q,
    revenue_model (PyNum r24)
    = ret {| revenue_2025 := PyNum r25; revenue_2026 := PyNum r26;
             revenue_2027 := PyNum r27; glp1_2024 := PyNum g24;
             glp1_2025 := PyNum g25; glp1_2026 := PyNum g26;
             glp1_2027 := PyNum g27 |}
    /\ r24 < r25 /\ r25 < r26 /\ r26 < r27
    /\ g24 == r24 * 0.45 /\ g25 == r25 * 0.55
    /\ g26 == r26 * 0.60 /\ g27 == r27 * 0.62
    /\ 0.45 <= 0.55 /\ 0.55 <= 0.60 /\ 0.60 <= 0.62.
Proof.
  intro H. do 7 eexists. split; [apply revenue_model_num|].
  repeat split; try reflexivity; try lra; vm_compute; congruence.
Qed.

Lemma revenue_forecast_increasing_witness :
  exists r25 r26 r27 g24 g25 g26 g27 : Q,
    revenue_model (PyNum 45.0)
    = ret {| revenue_2025 := PyNum r25; revenue_2026 := PyNum r26;
             revenue_2027 := PyNum r27; glp1_2024 := PyNum g24;
             glp1_2025 := PyNum g25; glp1_2026 := PyNum g26;
             glp1_2027 := PyNum g27 |}
    /\ 45.0 < r25 /\ r25 < r26 /\ r26 < r27
    /\ g24 == 45.0 * 0.45 /\ g25 == r25 * 0.55
    /\ g26 == r26 * 0.60 /\ g27 == r27 * 0.62
    /\ 0.45 <= 0.55 /\ 0.55 <= 0.60 /\ 0.60 <= 0.62.
Proof.
  apply (revenue_forecast_increasing 45.0). vm_compute. reflexivity.
Defined.

(** A statement whose most recent annual revenue is 60 (billion) gives a
    base year above the fixed 59.5 of the following year. *)
Lemma revenue_forecast_not_increasing :
  exists (r24 : Q) (f : revenue_forecast),
    base_revenue
      (Some [("Total Revenue"%string, [PyNum 60e9; PyNum 45e9])]) []
    = ret (PyNum r24)
    /\ revenue_model (PyNum r24) = ret f
    /\ revenue_2025 f = PyNum 59.5
    /\ ~ r24 < 59.5.
Proof.
  do 2 eexists. split; [vm_compute; reflexivity|].
  split; [apply revenue_model_num|].
  split; [reflexivity|]. vm_compute. congruence.
Qed.

(** ** Base-year revenue *)

(** C7, as the code has it.  When the most recent annual revenue is NaN,
    the base year is the second most recent figure over 1e9, whatever
    that figure is: a finite number gives a finite base year, NaN gives
    NaN, and a statement with no second figure raises [IndexError].  No
    constant takes over in those cases.  The constant 45.0 is the base
    year when there is no statement revenue row and [info] has no
    totalRevenue, and when the fetch failed ([lly_info] or [lly_hist] is
    [None]). *)
Theorem base_revenue_fallback (f : option frame) (info : dict) :
  (forall (second : pyval) (rest : list pyval),
     statement_row f "Total Revenue" = Some (PyNaN :: second :: rest) ->
     base_revenue f info = py_div second (PyNum 1e9)
     /\ (forall q : Q,
           second = PyNum q -> base_revenue f info = ret (PyNum (q / 1e9)))
     /\ (second = PyNaN -> base_revenue f info = ret PyNaN))
  /\ (statement_row f "Total Revenue" = Some [PyNaN] ->
      base_revenue f info = raise IndexError)
  /\ (statement_row f "Total Revenue" = None ->
      lookup info "totalRevenue" = None ->
      exists v : Q, base_revenue f info = ret (PyNum v) /\ v == 45.0)
  /\ (forall d : fetched,
        lly_info d = None \/ lly_hist d = None ->
        exists i : inputs,
          resolve_inputs d = ret i /\ revenue_2024 i = PyNum 45.0).
Proof.
  unfold base_revenue. split; [|split; [|split]].
  - intros second rest E. rewrite E. cbn [iloc nth_error bind ret].
    cbn [py_div isna bind ret]. split; [reflexivity|]. split.
    + intros q ->. reflexivity.
    + intros ->. reflexivity.
  - intro E. rewrite E. reflexivity.
  - intros E L. rewrite E. unfold get. rewrite L.
    eexists. split; reflexivity.
  - intros d H. unfold resolve_inputs.
    destruct (lly_info d) as [i|]; [destruct (lly_hist d) as [h|]|].
    + destruct H; discriminate.
    + eexists. split; reflexivity.
    + eexists. split; reflexivity.
Qed.

Lemma base_revenue_fallback_witness :
  base_revenue (Some [("Total Revenue"%string, [PyNaN; PyNum 34e9])]) []
  = ret (PyNum (34e9 / 1e9))
  /\ base_revenue (Some [("Total Revenue"%string, [PyNaN])]) []
     = raise IndexError
  /\ (exists v : Q, base_revenue None [] = ret (PyNum v) /\ v == 45.0)
  /\ exists i : inputs,
       resolve_inputs {| lly_info := None; lly_hist := Some [PyNum 1000];
                         financials := None; analyst_targets := None |}
       = ret i
       /\ revenue_2024 i = PyNum 45.0.
Proof.
  split; [|split; [|split]].
  - destruct (proj1 (base_revenue_fallback
                       (Some [("Total Revenue"%string,
                               [PyNaN; PyNum 34e9])]) [])
                (PyNum 34e9) [] eq_refl) as (_ & H & _).
    apply (H 34e9). reflexivity.
  - apply (proj1 (proj2 (base_revenue_fallback
                           (Some [("Total Revenue"%string, [PyNaN])]) []))).
    reflexivity.
  - apply (proj1 (proj2 (proj2 (base_revenue_fallback None []))));
      reflexivity.
  - apply (proj2 (proj2 (proj2 (base_revenue_fallback None [])))).
    left. reflexivity.
Defined.

(** With the two most recent figures NaN the base year is NaN: no constant
    takes over, in [base_revenue] and in the inputs [generate_report]
    resolves. *)
Lemma base_revenue_nan :
  base_revenue
    (Some [("Total Revenue"%string, [PyNaN; PyNaN; PyNum 28e9])]) []
  = ret PyNaN
  /\ exists i : inputs,
       resolve_inputs
         {| lly_info := Some [("currentPrice"%string, PyNum 1030.05)];
            lly_hist := Some [PyNum 1000; PyNum 1030.05];
            financials :=
              Some [("Total Revenue"%string, [PyNaN; PyNaN; PyNum 28e9])];
            analyst_targets := None |}
       = ret i
       /\ revenue_2024 i = PyNaN.
Proof.
  split; [reflexivity|]. eexists. split; reflexivity.
Qed.

(** ** Top-level error handling *)

(** C2, as the code has it.  When [generate_report] raises, the handler
    appends the error line and the stack trace to what was printed, and
    the process ends with exit status 0.  If the error came from the model
    or from the page assembly, [pdf.output] was never called: no document,
    partial or complete, was written. *)
Theorem main_catches (d : fetched) (pdf : renderer) (e : exn) :
  snd (generate_report d pdf) = inl e ->
  log (main d pdf)
  = fst (generate_report d pdf) ++ [PrintError e; PrintTraceback e]
  /\ exit_status (main d pdf) = 0%Z
  /\ ((valuation_model d = inl e
       \/ exists v, valuation_model d = inr v /\ layout pdf v = inl e) ->
      forall path : string, ~ In (Output path) (log (main d pdf))).
Proof.
  intro H. unfold main.
  destruct (generate_report d pdf) as [events r] eqn:G.
  cbn [fst snd] in *. subst r. cbn [log exit_status].
  split; [reflexivity|]. split; [reflexivity|].
  intros Hearly path Hin.
  assert (Hev : events
                = PrintFetching :: (if fallback d then [PrintFallback]
                                    else [])).
  { unfold generate_report in G.
    destruct Hearly as [Hv | (v & Hv & Hl)]; rewrite Hv in G.
    - now injection G as <-.
    - rewrite Hl in G. now injection G as <-. }
  subst events.
  destruct (fallback d); cbn in Hin;
    repeat (destruct Hin as [Hin|Hin]; [discriminate|]); exact Hin.
Qed.

Lemma main_catches_witness :
  log (main {| lly_info := Some [("currentPrice"%string, PyNum 1030.05)];
               lly_hist := Some [PyNum 1030.05];
               financials := None; analyst_targets := None |}
            {| layout := fun _ => raise RenderError;
               output := fun _ => ret tt;
               confirm := fun _ => ret tt |})
  = [PrintFetching; PrintError RenderError; PrintTraceback RenderError]
  /\ exit_status
       (main {| lly_info := Some [("currentPrice"%string, PyNum 1030.05)];
                lly_hist := Some [PyNum 1030.05];
                financials := None; analyst_targets := None |}
             {| layout := fun _ => raise RenderError;
                output := fun _ => ret tt;
                confirm := fun _ => ret tt |}) = 0%Z.
Proof.
  pose proof (main_catches
                {| lly_info := Some [("currentPrice"%string, PyNum 1030.05)];
                   lly_hist := Some [PyNum 1030.05];
                   financials := None; analyst_targets := None |}
                {| layout := fun _ => raise RenderError;
                   output := fun _ => ret tt;
                   confirm := fun _ => ret tt |}
                RenderError eq_refl) as (Hlog & Hexit & _).
  split; [exact Hlog|exact Hexit].
Defined.

(** An empty price history makes line 204 raise [IndexError]; the run is
    reported and ends with exit status 0, not with a non-zero one. *)
Lemma main_exit_status_zero :
  snd (generate_report
         {| lly_info := Some []; lly_hist := Some [];
            financials := None; analyst_targets := None |}
         {| layout := fun _ => ret tt; output := fun _ => ret tt;
            confirm := fun _ => ret tt |})
  = inl IndexError
  /\ ~ exit_status
         (main {| lly_info := Some []; lly_hist := Some [];
                  financials := None; analyst_targets := None |}
               {| layout := fun _ => ret tt; output := fun _ => ret tt;
            confirm := fun _ => ret tt |})
       <> 0%Z.
Proof.
  split; [reflexivity|]. intro H. apply H. reflexivity.
Qed.

(** ** The model end to end *)

(** After a failed fetch the constants of lines 198-202 give a discount
    rate of 9.5%, no DCF price, and a final target of 1648.50944256. *)
Example valuation_model_fallback :
  exists (v : valuation) (t : Q),
    valuation_model {| lly_info := None; lly_hist := None;
                       financials := None; analyst_targets := None |}
    = ret v
    /\ wacc v = PyNum 0.095
    /\ dcf_price v = PyNone
    /\ target_price (val_blend v) = PyNum t
    /\ t == 1648.50944256.
Proof.
  do 2 eexists. split; [vm_compute; reflexivity|].
  repeat (split; [reflexivity|]). vm_compute. reflexivity.
Qed.

(** * Further properties of the modelled code *)

(** ** [calculate_wacc] on numeric inputs *)

Section WaccNumeric.

Variable info : dict.
Variables b d c mc ie : Q.
Hypothesis Eb : get info "beta" (PyNum 0.8) = PyNum b.
Hypothesis Ed : get info "totalDebt" (PyNum 0) = PyNum d.
Hypothesis Ec : get info "totalCash" (PyNum 0) = PyNum c.
Hypothesis Emc : get info "marketCap" (PyNum 0) = PyNum mc.
Hypothesis Eie : get info "interestExpense" (PyNum 0) = PyNum ie.

(** The value returned on finite inputs, branch by branch. *)
Lemma calculate_wacc_closed_form :
  calculate_wacc info
  = PyNum (if Qltb 0 (mc + (d - c))
           then mc / (mc + (d - c)) * (0.045 + adjusted_beta b * 0.06)
                + (d - c) / (mc + (d - c)) * cost_of_debt_of ie d
                  * (1 - 0.21)
           else 0.085).
Proof.
  unfold calculate_wacc, calculate_wacc_with, calculate_wacc_body.
  rewrite Eb, Ed, Ec, Emc, Eie. py_eval.
  assert (Hbeta : (if Qltb b 0.5 then PyNum 0.75
                   else if Qltb b 0.7 then PyNum 0.7 else PyNum b)
                  = PyNum (adjusted_beta b)).
  { unfold adjusted_beta. destruct (Qltb b 0.5), (Qltb b 0.7); reflexivity. }
  rewrite Hbeta. py_eval.
  assert (Hcod : (if negb (Qeq_bool ie 0) && negb (Qeq_bool d 0)
                  then py_div (PyNum (Qabs ie)) (PyNum d)
                  else ret (PyNum (0.045 + 0.015)))
                 = ret (PyNum (cost_of_debt_of ie d))).
  { unfold cost_of_debt_of. destruct (Qeq_bool d 0) eqn:D0.
    - rewrite andb_false_r. reflexivity.
    - rewrite andb_true_r. destruct (Qeq_bool ie 0); cbn [negb];
        [reflexivity|].
      apply py_div_num. now apply Qeq_bool_neq. }
  rewrite Hcod. py_eval.
  destruct (Qltb 0 (mc + (d - c))) eqn:T; [|reflexivity].
  apply Qltb_lt in T.
  assert (Hnz : ~ mc + (d - c) == 0) by lra.
  rewrite !(py_div_num _ _ Hnz). reflexivity.
Qed.

End WaccNumeric.

Lemma adjusted_beta_floor (b : Q) : 0.7 <= adjusted_beta b.
Proof.
  unfold adjusted_beta. destruct (Qltb b 0.5); [lra|].
  destruct (Qltb b 0.7) eqn:L; [lra|]. now apply Qltb_ge in L.
Qed.

(** A handler value reached from every continuation is reached from the
    whole sequence. *)
Lemma try_except_bind {A B : Type} (c : result A) (k : A -> result B) (h : B) :
  (forall a, try_except (k a) h = h) -> try_except (bind c k) h = h.
Proof.
  intro H. destruct c as [e|a]; [reflexivity|apply H].
Qed.

Lemma calculate_wacc_handler_on_none (info : dict) :
  get info "beta" (PyNum 0.8) = PyNone
  \/ get info "totalDebt" (PyNum 0) = PyNone
  \/ get info "totalCash" (PyNum 0) = PyNone
  \/ get info "marketCap" (PyNum 0) = PyNone ->
  calculate_wacc info = PyNum 0.085.
Proof.
  intro H.
  unfold calculate_wacc, calculate_wacc_with, calculate_wacc_body.
  destruct H as [H | [H | [H | H]]]; rewrite H.
  - reflexivity.
  - do 5 (apply try_except_bind; intro). reflexivity.
  - do 5 (apply try_except_bind; intro).
    destruct (get info "totalDebt" (PyNum 0)); reflexivity.
  - do 6 (apply try_except_bind; intro). reflexivity.
Qed.

(** X1. A [None] under beta, totalDebt, totalCash or marketCap raises
    inside the body and the handler returns the default 0.085, whatever
    the other entries hold. *)
Theorem calculate_wacc_none_absorbed (info : dict) :
  get info "beta" (PyNum 0.8) = PyNone
  \/ get info "totalDebt" (PyNum 0) = PyNone
  \/ get info "totalCash" (PyNum 0) = PyNone
  \/ get info "marketCap" (PyNum 0) = PyNone ->
  calculate_wacc info = PyNum 0.085.
Proof.
  exact (calculate_wacc_handler_on_none info).
Qed.

Lemma calculate_wacc_none_absorbed_witness :
  calculate_wacc [("beta"%string, PyNum 1.2);
                  ("totalDebt"%string, PyNone);
                  ("marketCap"%string, PyNum 980e9)]
  = PyNum 0.085.
Proof.
  apply calculate_wacc_none_absorbed. right. left. reflexivity.
Defined.

(** X2. On finite inputs whose total value
    market_cap + total_debt - total_cash is not positive, the estimator
    returns the default 0.085. *)
Theorem calculate_wacc_nonpositive_value (info : dict) (b d c mc ie : Q) :
  get info "beta" (PyNum 0.8) = PyNum b ->
  get info "totalDebt" (PyNum 0) = PyNum d ->
  get info "totalCash" (PyNum 0) = PyNum c ->
  get info "marketCap" (PyNum 0) = PyNum mc ->
  get info "interestExpense" (PyNum 0) = PyNum ie ->
  mc + (d - c) <= 0 ->
  calculate_wacc info = PyNum 0.085.
Proof.
  intros Eb Ed Ec Emc Eie H.
  rewrite (calculate_wacc_closed_form info b d c mc ie Eb Ed Ec Emc Eie).
  apply Qltb_ge in H. now rewrite H.
Qed.

Lemma calculate_wacc_nonpositive_value_witness :
  calculate_wacc [("totalCash"%string, PyNum 30e9);
                  ("marketCap"%string, PyNum 20e9)]
  = PyNum 0.085.
Proof.
  apply (calculate_wacc_nonpositive_value _ 0.8 0 30e9 20e9 0);
    vm_compute; congruence.
Defined.

(** X3. With a positive market capitalisation and no net debt, the
    estimator returns the CAPM cost of equity 0.045 + beta * 0.06 on the
    adjusted beta: 0.75 for a raw beta below 0.5, otherwise the raw beta
    floored at 0.7.  The rate is therefore at least 0.087. *)
Theorem calculate_wacc_all_equity (info : dict) (b d c mc ie : Q) :
  get info "beta" (PyNum 0.8) = PyNum b ->
  get info "totalDebt" (PyNum 0) = PyNum d ->
  get info "totalCash" (PyNum 0) = PyNum c ->
  get info "marketCap" (PyNum 0) = PyNum mc ->
  get info "interestExpense" (PyNum 0) = PyNum ie ->
  0 < mc -> d == c ->
  exists w beta : Q,
    calculate_wacc info = PyNum w
    /\ w == 0.045 + beta * 0.06
    /\ (b < 0.5 -> beta == 0.75)
    /\ (0.5 <= b -> beta == Qmax b 0.7)
    /\ 0.087 <= w.
Proof.
  intros Eb Ed Ec Emc Eie Hmc Hdc.
  rewrite (calculate_wacc_closed_form info b d c mc ie Eb Ed Ec Emc Eie).
  assert (T : 0 < mc + (d - c)) by lra.
  rewrite (proj2 (Qltb_lt _ _) T).
  pose proof (adjusted_beta_floor b) as Hfloor.
  assert (Hw : mc / (mc + (d - c)) * (0.045 + adjusted_beta b * 0.06)
               + (d - c) / (mc + (d - c)) * cost_of_debt_of ie d * (1 - 0.21)
               == 0.045 + adjusted_beta b * 0.06).
  { assert (Z : d - c == 0) by lra. rewrite Z. field. lra. }
  exists (mc / (mc + (d - c)) * (0.045 + adjusted_beta b * 0.06)
          + (d - c) / (mc + (d - c)) * cost_of_debt_of ie d * (1 - 0.21)),
         (adjusted_beta b).
  split; [reflexivity|]. split; [exact Hw|].
  split; [|split].
  - intro L. unfold adjusted_beta.
    now rewrite (proj2 (Qltb_lt _ _) L).
  - intro L. unfold adjusted_beta.
    rewrite (proj2 (Qltb_ge _ _) L).
    destruct (Qltb b 0.7) eqn:L7.
    + apply Qltb_lt in L7. symmetry. apply Q.max_r. lra.
    + apply Qltb_ge in L7. symmetry. apply Q.max_l. exact L7.
  - rewrite Hw. lra.
Qed.

Lemma calculate_wacc_all_equity_witness :
  exists w beta : Q,
    calculate_wacc [("beta"%string, PyNum 0.49);
                    ("marketCap"%string, PyNum 980e9)] = PyNum w
    /\ w == 0.045 + beta * 0.06
    /\ (0.49 < 0.5 -> beta == 0.75)
    /\ (0.5 <= 0.49 -> beta == Qmax 0.49 0.7)
    /\ 0.087 <= w.
Proof.
  apply (calculate_wacc_all_equity _ 0.49 0 0 980e9 0);
    vm_compute; congruence.
Defined.

Lemma cost_of_debt_of_scale (k ie d : Q) :
  0 < k -> cost_of_debt_of (k * ie) (k * d) == cost_of_debt_of ie d.
Proof.
  intro Hk. unfold cost_of_debt_of.
  assert (Z : forall x, Qeq_bool (k * x) 0 = Qeq_bool x 0).
  { intro x. destruct (Qeq_bool x 0) eqn:E.
    - apply Qeq_bool_iff in E. apply Qeq_bool_iff. rewrite E. ring.
    - apply Qeq_bool_neq in E. apply Qeq_bool_false. intro N.
      apply E. apply (Qmult_integral_l k); [lra|]. exact N. }
  rewrite !Z.
  destruct (negb (Qeq_bool ie 0) && negb (Qeq_bool d 0)) eqn:C;
    [|reflexivity].
  apply andb_true_iff in C. destruct C as [_ Cd].
  apply negb_true_iff in Cd. apply Qeq_bool_neq in Cd.
  rewrite Qabs_Qmult, (Qabs_pos k) by lra.
  field. split; [exact Cd|lra].
Qed.

(** X4. The estimator does not depend on the unit of the money figures:
    multiplying market_cap, total_debt, total_cash and interest_expense
    by one positive factor leaves the returned rate unchanged. *)
Theorem calculate_wacc_scale_invariant (info info' : dict)
    (k b d c mc ie : Q) :
  get info "beta" (PyNum 0.8) = PyNum b ->
  get info "totalDebt" (PyNum 0) = PyNum d ->
  get info "totalCash" (PyNum 0) = PyNum c ->
  get info "marketCap" (PyNum 0) = PyNum mc ->
  get info "interestExpense" (PyNum 0) = PyNum ie ->
  get info' "beta" (PyNum 0.8) = PyNum b ->
  get info' "totalDebt" (PyNum 0) = PyNum (k * d) ->
  get info' "totalCash" (PyNum 0) = PyNum (k * c) ->
  get info' "marketCap" (PyNum 0) = PyNum (k * mc) ->
  get info' "interestExpense" (PyNum 0) = PyNum (k * ie) ->
  0 < k ->
  exists w w' : Q,
    calculate_wacc info = PyNum w /\ calculate_wacc info' = PyNum w'
    /\ w == w'.
Proof.
  intros Eb Ed Ec Emc Eie Eb' Ed' Ec' Emc' Eie' Hk.
  rewrite (calculate_wacc_closed_form info b d c mc ie Eb Ed Ec Emc Eie).
  rewrite (calculate_wacc_closed_form info' b (k * d) (k * c) (k * mc)
             (k * ie) Eb' Ed' Ec' Emc' Eie').
  do 2 eexists. split; [reflexivity|]. split; [reflexivity|].
  assert (S : k * mc + (k * d - k * c) == k * (mc + (d - c))) by ring.
  destruct (Qltb 0 (mc + (d - c))) eqn:T.
  - apply Qltb_lt in T.
    assert (T' : 0 < k * mc + (k * d - k * c)).
    { rewrite S. apply Qmult_lt_0_compat; assumption. }
    rewrite (proj2 (Qltb_lt _ _) T').
    rewrite (cost_of_debt_of_scale k ie d Hk).
    field. split; lra.
  - apply Qltb_ge in T.
    assert (T' : k * mc + (k * d - k * c) <= 0).
    { rewrite S. rewrite <- (Qmult_0_r k).
      apply Qmult_le_l; assumption. }
    rewrite (proj2 (Qltb_ge _ _) T'). reflexivity.
Qed.

Lemma calculate_wacc_scale_invariant_witness :
  exists w w' : Q,
    calculate_wacc [("beta"%string, PyNum 0.8);
                    ("totalDebt"%string, PyNum 30);
                    ("totalCash"%string, PyNum 3);
                    ("marketCap"%string, PyNum 980);
                    ("interestExpense"%string, PyNum (-0.6))] = PyNum w
    /\ calculate_wacc [("beta"%string, PyNum 0.8);
                       ("totalDebt"%string, PyNum (1000000000 * 30));
                       ("totalCash"%string, PyNum (1000000000 * 3));
                       ("marketCap"%string, PyNum (1000000000 * 980));
                       ("interestExpense"%string,
                        PyNum (1000000000 * (-0.6)))] = PyNum w'
    /\ w == w'.
Proof.
  apply (calculate_wacc_scale_invariant _ _ 1000000000 0.8 30 3 980 (-0.6));
    try reflexivity.
Defined.

(** ** [calculate_dcf] on degenerate and on scaled inputs *)

Lemma discount_loop_none (cfs : list pyval) :
  In PyNone cfs ->
  forall (i : nat) (wacc acc : pyval),
  exists e : exn, discount_loop cfs i wacc acc = raise e.
Proof.
  induction cfs as [|cf rest IH]; [contradiction|].
  intros Hin i wacc acc. cbn [discount_loop].
  destruct (py_add (PyNum 1) wacc) as [e|base];
    [eexists; reflexivity|]. cbn [bind].
  destruct (py_pow base i) as [e|factor]; [eexists; reflexivity|].
  cbn [bind]. destruct Hin as [-> | Hin].
  - destruct factor; eexists; reflexivity.
  - destruct (py_div cf factor) as [e|term]; [eexists; reflexivity|].
    cbn [bind].
    destruct (py_add acc term) as [e|acc']; [eexists; reflexivity|].
    cbn [bind]. apply IH. exact Hin.
Qed.

Lemma calculate_dcf_loop_raises (cfs : list pyval) (wacc g : pyval)
    (years : nat) (e : exn) :
  discount_loop cfs 1 wacc (PyNum 0) = raise e ->
  calculate_dcf cfs wacc g years = (PyNone, PyNone, PyNone).
Proof.
  intro H. unfold calculate_dcf, calculate_dcf_body. now rewrite H.
Qed.

(** X5. Inputs the formula cannot use are absorbed by the handler: an
    empty cash-flow list, a [None] cash flow, a [None] rate or growth, and
    wacc = -1 on a non-empty list all give three [None]. *)
Theorem calculate_dcf_unusable_inputs (cfs : list pyval) (wacc g : pyval)
    (years : nat) :
  cfs = [] \/ In PyNone cfs \/ wacc = PyNone \/ g = PyNone
  \/ (cfs <> [] /\ exists w : Q, wacc = PyNum w /\ 1 + w == 0) ->
  calculate_dcf cfs wacc g years = (PyNone, PyNone, PyNone).
Proof.
  intros [H | [H | [H | [H | (Hne & w & Hw & Hz)]]]].
  - subst cfs. reflexivity.
  - destruct (discount_loop_none cfs H 1%nat wacc (PyNum 0)) as (e & E).
    apply (calculate_dcf_loop_raises _ _ _ _ e E).
  - subst wacc. destruct cfs as [|cf rest]; [reflexivity|].
    apply (calculate_dcf_loop_raises _ _ _ _ TypeError). reflexivity.
  - subst g. unfold calculate_dcf, calculate_dcf_body.
    destruct (discount_loop cfs 1 wacc (PyNum 0)) as [e|pv]; [reflexivity|].
    cbn [bind]. destruct (last_item cfs) as [e|v]; reflexivity.
  - subst wacc. destruct cfs as [|cf rest]; [congruence|].
    assert (Z : (1 + w) ^ Z.of_nat 1 == 0) by (cbn; exact Hz).
    destruct (py_div_zero cf _ Z) as (e & E).
    apply (calculate_dcf_loop_raises _ _ _ _ e).
    cbn [discount_loop]. py_eval. rewrite E. reflexivity.
Qed.

Lemma calculate_dcf_unusable_inputs_witness :
  calculate_dcf [PyNum 10e9; PyNone; PyNum 12e9] (PyNum 0.095)
                (PyNum 0.035) 5
  = (PyNone, PyNone, PyNone).
Proof.
  apply calculate_dcf_unusable_inputs. right. left. cbn. tauto.
Defined.

Lemma direct_pv_scale (k wacc : Q) (cfs : list Q) :
  forall i : nat,
  direct_pv (map (Qmult k) cfs) i wacc == k * direct_pv cfs i wacc.
Proof.
  induction cfs as [|c rest IH]; intro i; cbn [map direct_pv].
  - ring.
  - rewrite IH. unfold Qdiv. ring.
Qed.

Lemma last_map_scale (k : Q) (cfs : list Q) :
  cfs <> [] -> last (map (Qmult k) cfs) 0 = k * last cfs 0.
Proof.
  induction cfs as [|c rest IH]; [congruence|]. intros _.
  destruct rest as [|c' rest']; [reflexivity|].
  change (last (map (Qmult k) (c :: c' :: rest')) 0)
    with (last (map (Qmult k) (c' :: rest')) 0).
  rewrite IH by discriminate. reflexivity.
Qed.

(** X6. The valuation is homogeneous in the cash flows: multiplying every
    cash flow by k multiplies the enterprise value and both of its
    components by k (finite inputs, wacc different from g and from -1). *)
Theorem calculate_dcf_homogeneous (cfs : list Q) (k wacc g : Q)
    (years : nat) :
  cfs <> [] -> ~ 1 + wacc == 0 -> ~ wacc - g == 0 ->
  exists ev pv tv ev' pv' tv' : Q,
    calculate_dcf (map PyNum cfs) (PyNum wacc) (PyNum g) years
    = (PyNum ev, PyNum pv, PyNum tv)
    /\ calculate_dcf (map PyNum (map (Qmult k) cfs)) (PyNum wacc) (PyNum g)
                     years
       = (PyNum ev', PyNum pv', PyNum tv')
    /\ ev' == k * ev /\ pv' == k * pv /\ tv' == k * tv.
Proof.
  intros Hne Hbase Hspread.
  destruct (calculate_dcf_num wacc Hbase cfs g years Hne Hspread)
    as (ev & pv & tv & E & Hpv & Htv & Hev).
  assert (Hne' : map (Qmult k) cfs <> []).
  { destruct cfs; [congruence|discriminate]. }
  destruct (calculate_dcf_num wacc Hbase (map (Qmult k) cfs) g years Hne'
              Hspread)
    as (ev' & pv' & tv' & E' & Hpv' & Htv' & Hev').
  exists ev, pv, tv, ev', pv', tv'.
  split; [exact E|]. split; [exact E'|].
  assert (P : pv' == k * pv).
  { rewrite Hpv', Hpv. apply direct_pv_scale. }
  assert (T : tv' == k * tv).
  { rewrite Htv', Htv, (last_map_scale k cfs Hne).
    unfold direct_terminal, Qdiv. ring. }
  split; [|split; assumption].
  rewrite Hev', Hev, P, T. ring.
Qed.

Lemma calculate_dcf_homogeneous_witness :
  exists ev pv tv ev' pv' tv' : Q,
    calculate_dcf (map PyNum [10; 11; 12; 13; 14]) (PyNum 0.095)
                  (PyNum 0.035) 5
    = (PyNum ev, PyNum pv, PyNum tv)
    /\ calculate_dcf (map PyNum (map (Qmult 1000000000) [10; 11; 12; 13; 14]))
                     (PyNum 0.095) (PyNum 0.035) 5
       = (PyNum ev', PyNum pv', PyNum tv')
    /\ ev' == 1000000000 * ev /\ pv' == 1000000000 * pv
    /\ tv' == 1000000000 * tv.
Proof.
  apply (calculate_dcf_homogeneous [10; 11; 12; 13; 14] 1000000000
                                   0.095 0.035 5);
    vm_compute; congruence.
Defined.

Lemma direct_pv_pos (wacc : Q) (cfs : list Q) :
  0 < 1 + wacc -> cfs <> [] -> Forall (fun c => 0 < c) cfs ->
  forall i : nat, 0 < direct_pv cfs i wacc.
Proof.
  intros Hbase. induction cfs as [|c rest IH]; [congruence|].
  intros _ Hall i. inversion Hall as [|? ? Hc Hrest]; subst.
  cbn [direct_pv].
  assert (Hterm : 0 < c / (1 + wacc) ^ Z.of_nat i)
    by (apply quotient_pos; [exact Hc|apply Qpower_0_lt; exact Hbase]).
  destruct rest as [|c' rest'].
  - cbn [direct_pv]. lra.
  - assert (0 < direct_pv (c' :: rest') (S i) wacc)
      by (apply IH; [discriminate|exact Hrest]).
    lra.
Qed.

Lemma last_pos (cfs : list Q) :
  cfs <> [] -> Forall (fun c => 0 < c) cfs -> 0 < last cfs 0.
Proof.
  induction cfs as [|c rest IH]; [congruence|]. intros _ Hall.
  inversion Hall as [|? ? Hc Hrest]; subst.
  destruct rest as [|c' rest']; [exact Hc|].
  change (last (c :: c' :: rest') 0) with (last (c' :: rest') 0).
  apply IH; [discriminate|exact Hrest].
Qed.

Lemma calculate_dcf_positive_components (cfs : list Q) (wacc g : Q)
    (years : nat) :
  cfs <> [] -> Forall (fun c => 0 < c) cfs -> -1 < g -> g < wacc ->
  exists ev pv tv : Q,
    calculate_dcf (map PyNum cfs) (PyNum wacc) (PyNum g) years
    = (PyNum ev, PyNum pv, PyNum tv)
    /\ 0 < pv /\ 0 < tv /\ pv < ev /\ tv < ev.
Proof.
  intros Hne Hall Hg Hw.
  assert (Hbase : 0 < 1 + wacc) by lra.
  assert (Hbase0 : ~ 1 + wacc == 0) by lra.
  assert (Hspread : ~ wacc - g == 0) by lra.
  destruct (calculate_dcf_num wacc Hbase0 cfs g years Hne Hspread)
    as (ev & pv & tv & E & Hpv & Htv & Hev).
  exists ev, pv, tv. split; [exact E|].
  assert (Ppv : 0 < pv).
  { rewrite Hpv. apply direct_pv_pos; assumption. }
  assert (Ptv : 0 < tv).
  { rewrite Htv. unfold direct_terminal.
    apply quotient_pos; [|apply Qpower_0_lt; exact Hbase].
    apply quotient_pos; [|lra].
    apply Qmult_lt_0_compat; [apply last_pos; assumption|lra]. }
  repeat split; try assumption; lra.
Qed.

(** X7. For positive cash flows and -1 < g < wacc, the call returns
    finite numbers with positive components: 0 < pv_cf, 0 < pv_terminal
    and the enterprise value exceeds each of them. *)
Theorem calculate_dcf_positive (cfs : list Q) (wacc g : Q) (years : nat) :
  cfs <> [] -> Forall (fun c => 0 < c) cfs -> -1 < g -> g < wacc ->
  exists ev pv tv : Q,
    calculate_dcf (map PyNum cfs) (PyNum wacc) (PyNum g) years
    = (PyNum ev, PyNum pv, PyNum tv)
    /\ 0 < pv /\ 0 < tv /\ pv < ev /\ tv < ev.
Proof.
  exact (calculate_dcf_positive_components cfs wacc g years).
Qed.

Lemma calculate_dcf_positive_witness :
  exists ev pv tv : Q,
    calculate_dcf (map PyNum [10e9; 11e9; 12e9; 13e9; 14e9]) (PyNum 0.095)
                  (PyNum 0.035) 5
    = (PyNum ev, PyNum pv, PyNum tv)
    /\ 0 < pv /\ 0 < tv /\ pv < ev /\ tv < ev.
Proof.
  apply (calculate_dcf_positive [10e9; 11e9; 12e9; 13e9; 14e9] 0.095 0.035 5).
  - discriminate.
  - repeat constructor.
  - reflexivity.
  - reflexivity.
Defined.

(** ** Input resolution *)

(** X8. With an empty price history the model raises [IndexError], also
    when [info] carries a current price: the default of the lookup on
    line 204 is evaluated before the lookup. *)
Theorem valuation_model_empty_history (info : dict) (f : option frame)
    (targets : option dict) :
  resolve_inputs {| lly_info := Some info; lly_hist := Some [];
                    financials := f; analyst_targets := targets |}
  = raise IndexError
  /\ valuation_model {| lly_info := Some info; lly_hist := Some [];
                        financials := f; analyst_targets := targets |}
     = raise IndexError.
Proof.
  split; reflexivity.
Qed.

(** X9. The resolved market capitalisation is never [None], and the
    resolved price is [None] only if the last close of the history is. *)
Theorem resolve_inputs_not_none (d : fetched) (i : inputs) :
  resolve_inputs d = ret i ->
  market_cap i <> PyNone
  /\ (current_price i = PyNone ->
      exists hist : list pyval,
        lly_hist d = Some hist /\ last_item hist = ret PyNone).
Proof.
  unfold resolve_inputs.
  destruct (lly_info d) as [info|]; [destruct (lly_hist d) as [hist|]|].
  - destruct (last_item hist) as [e|close] eqn:L; [discriminate|].
    cbn [bind]. cbv zeta.
    assert (M : (if is_none (get info "marketCap" (PyNum 980e9))
                 then PyNum 980e9
                 else get info "marketCap" (PyNum 980e9)) <> PyNone)
      by (destruct (get info "marketCap" (PyNum 980e9)); discriminate).
    destruct (get info "currentPrice" close) eqn:Ep; cbn [is_none bind];
      (destruct (base_revenue (financials d) info) as [e|rev];
       [discriminate|]);
      cbn [bind]; intro H; injection H as <-;
      cbn [market_cap current_price]; (split; [exact M|]);
      try discriminate.
    intros ->. exists hist. split; [reflexivity|exact L].
  - intro H. injection H as <-. split; discriminate.
  - intro H. injection H as <-. split; discriminate.
Qed.

Lemma resolve_inputs_not_none_witness :
  market_cap {| current_price := PyNum 1030.05;
                market_cap := PyNum 980e9;
                revenue_2024 := PyNum (45.0e9 / 1e9);
                ttm_eps := PyNum 20.45;
                forward_eps := PyNum 22.66 |} <> PyNone.
Proof.
  apply (resolve_inputs_not_none
           {| lly_info := Some [("currentPrice"%string, PyNone);
                                ("marketCap"%string, PyNone)];
              lly_hist := Some [PyNum 1000; PyNum 1030.05];
              financials := None; analyst_targets := None |}).
  reflexivity.
Defined.

(** ** Base-year revenue *)

(** X10. A statement revenue row decides the base year alone: a finite
    most recent figure is used whatever [info] holds, and a row without a
    usable second year (no figure at all, or a single NaN) raises
    [IndexError] instead of falling back to [info] or to the constant. *)
Theorem base_revenue_statement_row (f : option frame) (info : dict)
    (row : list pyval) :
  statement_row f "Total Revenue" = Some row ->
  (forall (q : Q) (rest : list pyval),
     row = PyNum q :: rest -> base_revenue f info = ret (PyNum (q / 1e9)))
  /\ (row = [] \/ row = [PyNaN] -> base_revenue f info = raise IndexError).
Proof.
  intro E. unfold base_revenue. rewrite E. split.
  - intros q rest ->. reflexivity.
  - intros [-> | ->]; reflexivity.
Qed.

Lemma base_revenue_statement_row_witness :
  base_revenue (Some [("Total Revenue"%string, [PyNaN])])
               [("totalRevenue"%string, PyNum 45e9)]
  = raise IndexError.
Proof.
  apply (proj2 (base_revenue_statement_row
                  (Some [("Total Revenue"%string, [PyNaN])])
                  [("totalRevenue"%string, PyNum 45e9)] [PyNaN] eq_refl)).
  right. reflexivity.
Defined.

(** ** Operating margins *)

Lemma margin_model_num (info : option dict) (m : Q) :
  operating_margin_2024 info = ret (PyNum m) ->
  margin_model info
  = ret {| op_margin_2024 := PyNum m;
           op_margin_2025 := PyNum (m + 0.01);
           op_margin_2026 := PyNum (m + 0.01 + 0.01);
           op_margin_2027 := PyNum (m + 0.01 + 0.01 + 0.005);
           op_margin_2026_bull := PyNum (m + 0.01 + 0.01 + 0.02) |}.
Proof.
  intro E. unfold margin_model. rewrite E. reflexivity.
Qed.

(** X11. Whatever [info] holds (absent, empty, a [None], NaN, zero or any
    number under operatingMargins), the margin model returns: the 2024
    margin m lies in (0.30, 0.40], it is the reported margin when that
    lies in (0.30, 0.40], and the later margins are m + 0.01, m + 0.02,
    m + 0.025 and, for the bull case, m + 0.04. *)
Theorem margin_model_range (info : option dict) :
  exists m m25 m26 m27 bull : Q,
    margin_model info
    = ret {| op_margin_2024 := PyNum m; op_margin_2025 := PyNum m25;
             op_margin_2026 := PyNum m26; op_margin_2027 := PyNum m27;
             op_margin_2026_bull := PyNum bull |}
    /\ 0.30 < m /\ m <= 0.40
    /\ m25 == m + 0.01 /\ m26 == m + 0.02 /\ m27 == m + 0.025
    /\ bull == m + 0.04
    /\ (forall (i : dict) (x : Q),
          info = Some i -> lookup i "operatingMargins" = Some (PyNum x) ->
          0.30 < x -> x <= 0.40 -> m = x).
Proof.
  destruct (operating_margin_2024_range info) as (m & Em & Hm1 & Hm2).
  exists m. do 4 eexists. split; [apply (margin_model_num info m Em)|].
  repeat (split; [first [assumption | ring]|]).
  intros i x -> L H1 H2. unfold operating_margin_2024, get in Em.
  rewrite L in Em. destruct i as [|kv i']; [discriminate|].
  cbn [dict_truthy andb truthy] in Em.
  assert (Ex : Qeq_bool x 0 = false) by (apply Qeq_bool_false; lra).
  rewrite Ex in Em. cbn [negb] in Em. py_eval. cbn [py_gt py_lt] in Em.
  py_eval.
  assert (G40 : Qltb 0.40 x = false) by (apply Qltb_ge; exact H2).
  assert (G30 : Qltb 0.30 x = true) by (apply Qltb_lt; exact H1).
  cbn [py_gt py_lt bind ret] in Em. rewrite G40, G30 in Em.
  now injection Em as ->.
Qed.

Lemma margin_model_range_witness :
  exists m : Q,
    operating_margin_2024 (Some [("operatingMargins"%string, PyNum 0.35)])
    = ret (PyNum m)
    /\ m = 0.35.
Proof.
  destruct (margin_model_range
              (Some [("operatingMargins"%string, PyNum 0.35)]))
    as (m & m25 & m26 & m27 & bull & E & _ & _ & _ & _ & _ & _ & H).
  exists m. assert (M : m = 0.35).
  { apply (H [("operatingMargins"%string, PyNum 0.35)] 0.35);
      first [reflexivity | vm_compute; congruence]. }
  split; [|exact M]. subst m. reflexivity.
Defined.

(** ** Earnings path and cash flows *)

Lemma quotient_lt (a b s : Q) : 0 < s -> a < b -> a / s < b / s.
Proof.
  intros Hs H. unfold Qdiv. apply Qmult_lt_compat_r; [|exact H].
  apply Qinv_lt_0_compat. exact Hs.
Qed.

(** X12. For a positive market capitalisation and price the computed EPS
    always rise from 2025 to 2026 to 2027, so the per-year floors of
    lines 291-294 never apply: unless the computed eps_2025 is below
    eps_2024, the forecast is the computed path itself. *)
Theorem eps_floors_unreachable (info : option dict) (mc cp fe te r24 : Q) :
  0 < mc -> 0 < cp ->
  exists m e25 e26 e27 : Q,
    operating_margin_2024 info = ret (PyNum m)
    /\ let s := mc / cp in
       let e24 := if Qeq_bool fe 0 then te else fe in
       let n25 := 59.5 * (m + 0.01) * 1e9 / s in
       let n26 := 59.5 * 1.28 * (m + 0.01 + 0.01) * 1e9 / s in
       let n27 := 59.5 * 1.28 * 1.22 * (m + 0.01 + 0.01 + 0.005) * 1e9 / s in
       earnings_forecast
         {| current_price := PyNum cp; market_cap := PyNum mc;
            revenue_2024 := PyNum r24; ttm_eps := PyNum te;
            forward_eps := PyNum fe |} info
       = ret {| shares_outstanding := PyNum s; eps_2024 := PyNum e24;
                eps_2025 := PyNum e25; eps_2026 := PyNum e26;
                eps_2027 := PyNum e27 |}
       /\ 0 < n25 /\ n25 < n26 /\ n26 < n27
       /\ (e24 <= n25 -> e25 == n25 /\ e26 == n26 /\ e27 == n27).
Proof.
  intros Hmc Hcp.
  destruct (operating_margin_2024_range info) as (m & Em & Hm1 & Hm2).
  assert (Hcp0 : ~ cp == 0) by lra.
  pose proof (quotient_pos _ _ Hmc Hcp) as Hs.
  assert (Hs0 : ~ mc / cp == 0) by lra.
  exists m.
  unfold earnings_forecast, revenue_model, margin_model, eps_model.
  rewrite Em.
  cbn [bind ret py_add py_mul py_arith revenue_2025 revenue_2026 revenue_2027
       op_margin_2025 op_margin_2026 op_margin_2027 market_cap current_price
       forward_eps ttm_eps revenue_2024 truthy].
  rewrite (py_div_num _ _ Hcp0). cbn [bind ret].
  rewrite !(naive_eps_num _ _ _ Hs0). cbn [bind ret].
  change 1e9 with 1000000000.
  set (s := mc / cp) in *.
  assert (P25 : 0 < 59.5 * (m + 0.01) * 1000000000 / s)
    by (apply quotient_pos; [lra|exact Hs]).
  assert (L26 : 59.5 * (m + 0.01) * 1000000000 / s
                < 59.5 * 1.28 * (m + 0.01 + 0.01) * 1000000000 / s)
    by (apply quotient_lt; [exact Hs|lra]).
  assert (L27 : 59.5 * 1.28 * (m + 0.01 + 0.01) * 1000000000 / s
                < 59.5 * 1.28 * 1.22 * (m + 0.01 + 0.01 + 0.005)
                  * 1000000000 / s)
    by (apply quotient_lt; [exact Hs|lra]).
  set (n25 := 59.5 * (m + 0.01) * 1000000000 / s) in *.
  set (n26 := 59.5 * 1.28 * (m + 0.01 + 0.01) * 1000000000 / s) in *.
  set (n27 := 59.5 * 1.28 * 1.22 * (m + 0.01 + 0.01 + 0.005)
              * 1000000000 / s) in *.
  assert (E24 : (if negb (Qeq_bool fe 0) then PyNum fe else PyNum te)
                = PyNum (if Qeq_bool fe 0 then te else fe))
    by (destruct (Qeq_bool fe 0); reflexivity).
  rewrite E24. set (e24 := if Qeq_bool fe 0 then te else fe).
  py_eval. clearbody n25 n26 n27 e24. clear E24.
  assert (D26 : Qltb n26 n25 = false) by (apply Qltb_ge; lra).
  assert (D27 : Qltb n27 n26 = false) by (apply Qltb_ge; lra).
  destruct (Qltb n25 e24) eqn:D25.
  - apply Qltb_lt in D25.
    do 3 eexists. split; [reflexivity|]. split; [reflexivity|].
    repeat (split; [assumption|]). intro. lra.
  - rewrite D26. py_eval. rewrite D27. py_eval.
    exists n25, n26, n27. split; [reflexivity|]. split; [reflexivity|].
    repeat (split; [assumption|]). intros _. repeat split; reflexivity.
Qed.

Lemma eps_floors_unreachable_witness :
  exists m e25 e26 e27 : Q,
    operating_margin_2024 None = ret (PyNum m)
    /\ let s := 980e9 / 1030.05 in
       let e24 := if Qeq_bool 22.66 0 then 19.80 else 22.66 in
       let n25 := 59.5 * (m + 0.01) * 1e9 / s in
       let n26 := 59.5 * 1.28 * (m + 0.01 + 0.01) * 1e9 / s in
       let n27 := 59.5 * 1.28 * 1.22 * (m + 0.01 + 0.01 + 0.005) * 1e9 / s in
       earnings_forecast
         {| current_price := PyNum 1030.05; market_cap := PyNum 980e9;
            revenue_2024 := PyNum 45.0; ttm_eps := PyNum 19.80;
            forward_eps := PyNum 22.66 |} None
       = ret {| shares_outstanding := PyNum s; eps_2024 := PyNum e24;
                eps_2025 := PyNum e25; eps_2026 := PyNum e26;
                eps_2027 := PyNum e27 |}
       /\ 0 < n25 /\ n25 < n26 /\ n26 < n27
       /\ (e24 <= n25 -> e25 == n25 /\ e26 == n26 /\ e27 == n27).
Proof.
  apply (eps_floors_unreachable None 980e9 1030.05 22.66 19.80 45.0);
    vm_compute; reflexivity.
Defined.

Lemma fcf_num (r m c : Q) :
  fcf (PyNum r) (PyNum m) (PyNum c) = ret (PyNum (r * m * c * 1e9)).
Proof. reflexivity. Qed.

Lemma fcf_base_year (v : pyval) (m c : Q) :
  v <> PyNone -> exists x : pyval, fcf v (PyNum m) (PyNum c) = ret x.
Proof.
  intro H. destruct v; [congruence| |]; eexists; reflexivity.
Qed.

Lemma revenue_model_not_none (v : pyval) :
  v <> PyNone ->
  exists g : pyval,
    revenue_model v
    = ret {| revenue_2025 := PyNum 59.5;
             revenue_2026 := PyNum (59.5 * 1.28);
             revenue_2027 := PyNum (59.5 * 1.28 * 1.22);
             glp1_2024 := g;
             glp1_2025 := PyNum (59.5 * 0.55);
             glp1_2026 := PyNum (59.5 * 1.28 * 0.60);
             glp1_2027 := PyNum (59.5 * 1.28 * 1.22 * 0.62) |}.
Proof.
  intro H. destruct v; [congruence| |]; eexists; reflexivity.
Qed.

(** The five cash flows handed to the DCF, for a 2024 margin [m]. *)
Lemma cashflow_model_eval (v g : pyval) (m : Q) :
  v <> PyNone ->
  cashflow_model v
    {| revenue_2025 := PyNum 59.5;
       revenue_2026 := PyNum (59.5 * 1.28);
       revenue_2027 := PyNum (59.5 * 1.28 * 1.22);
       glp1_2024 := g;
       glp1_2025 := PyNum (59.5 * 0.55);
       glp1_2026 := PyNum (59.5 * 1.28 * 0.60);
       glp1_2027 := PyNum (59.5 * 1.28 * 1.22 * 0.62) |}
    {| op_margin_2024 := PyNum m;
       op_margin_2025 := PyNum (m + 0.01);
       op_margin_2026 := PyNum (m + 0.01 + 0.01);
       op_margin_2027 := PyNum (m + 0.01 + 0.01 + 0.005);
       op_margin_2026_bull := PyNum (m + 0.01 + 0.01 + 0.02) |}
  = ret (map PyNum
           [59.5 * (m + 0.01) * 0.89 * 1e9;
            59.5 * 1.28 * (m + 0.01 + 0.01) * 0.91 * 1e9;
            59.5 * 1.28 * 1.22 * (m + 0.01 + 0.01 + 0.005) * 0.92 * 1e9;
            59.5 * 1.28 * 1.22 * 1.15 * (m + 0.01 + 0.01 + 0.005)
            * 0.93 * 1e9;
            59.5 * 1.28 * 1.22 * 1.15 * (m + 0.01 + 0.01 + 0.005)
            * 0.93 * 1e9 * 1.15]).
Proof.
  intro Hv. unfold cashflow_model.
  cbn [op_margin_2024 op_margin_2025 op_margin_2026 op_margin_2027
       revenue_2025 revenue_2026 revenue_2027].
  destruct (fcf_base_year v m 0.87 Hv) as (x & ->). cbn [bind ret].
  rewrite !fcf_num. cbn [bind py_mul py_arith ret]. rewrite fcf_num.
  reflexivity.
Qed.

Lemma cashflow_model_num (v : pyval) (info : option dict) (m : Q) :
  v <> PyNone -> operating_margin_2024 info = ret (PyNum m) ->
  (r <- revenue_model v ;;
   mm <- margin_model info ;;
   cashflow_model v r mm)
  = ret [PyNum (59.5 * (m + 0.01) * 0.89 * 1e9);
         PyNum (59.5 * 1.28 * (m + 0.01 + 0.01) * 0.91 * 1e9);
         PyNum (59.5 * 1.28 * 1.22 * (m + 0.01 + 0.01 + 0.005) * 0.92 * 1e9);
         PyNum (59.5 * 1.28 * 1.22 * 1.15 * (m + 0.01 + 0.01 + 0.005)
                * 0.93 * 1e9);
         PyNum (59.5 * 1.28 * 1.22 * 1.15 * (m + 0.01 + 0.01 + 0.005)
                * 0.93 * 1e9 * 1.15)].
Proof.
  intros Hv Em.
  destruct (revenue_model_not_none v Hv) as (g & ->).
  rewrite (margin_model_num info m Em). cbn [bind ret].
  apply (cashflow_model_eval v g m Hv).
Qed.

(** X13. The cash flows handed to the DCF do not depend on the base-year
    revenue (any value but [None], NaN included), and for every [info]
    they are positive and strictly increasing, the fifth being 1.15 times
    the fourth. *)
Theorem cashflows_increasing (info : option dict) :
  exists c1 c2 c3 c4 c5 : Q,
    (forall v : pyval,
       v <> PyNone ->
       (r <- revenue_model v ;;
        mm <- margin_model info ;;
        cashflow_model v r mm)
       = ret [PyNum c1; PyNum c2; PyNum c3; PyNum c4; PyNum c5])
    /\ 0 < c1 /\ c1 < c2 /\ c2 < c3 /\ c3 < c4 /\ c4 < c5
    /\ c5 == c4 * 1.15.
Proof.
  destruct (operating_margin_2024_range info) as (m & Em & Hm1 & Hm2).
  do 5 eexists. split.
  - intros v Hv. apply (cashflow_model_num v info m Hv Em).
  - change 1e9 with 1000000000. repeat split; lra.
Qed.

Lemma cashflows_increasing_witness :
  exists c1 c2 c3 c4 c5 : Q,
    (r <- revenue_model PyNaN ;;
     mm <- margin_model None ;;
     cashflow_model PyNaN r mm)
    = ret [PyNum c1; PyNum c2; PyNum c3; PyNum c4; PyNum c5]
    /\ 0 < c1 /\ c1 < c2 /\ c2 < c3 /\ c3 < c4 /\ c4 < c5.
Proof.
  destruct (cashflows_increasing None)
    as (c1 & c2 & c3 & c4 & c5 & H & P1 & P2 & P3 & P4 & P5 & _).
  exists c1, c2, c3, c4, c5. split; [apply H; discriminate|].
  repeat split; assumption.
Defined.

(** ** Net debt and the DCF price *)

Lemma get_none_nonempty (info : dict) (k : string) (q : Q) :
  get info k (PyNum q) = PyNone -> dict_truthy info = true.
Proof.
  destruct info; [discriminate|reflexivity].
Qed.

(** X14. A [None] under totalDebt or totalCash is absorbed by
    [calculate_wacc], which returns 0.085, but not by the net-debt line
    of [generate_report]: as soon as the DCF gives a non-zero enterprise
    value, that line raises [TypeError]. *)
Theorem net_debt_none_raises (info : dict) :
  get info "totalDebt" (PyNum 0) = PyNone
  \/ get info "totalCash" (PyNum 0) = PyNone ->
  calculate_wacc info = PyNum 0.085
  /\ forall ev shares : pyval,
       truthy ev = true ->
       dcf_price_of (Some info) ev shares = raise TypeError.
Proof.
  intro H. split.
  - apply calculate_wacc_handler_on_none. tauto.
  - intros ev shares Hev. unfold dcf_price_of. rewrite Hev.
    assert (T : dict_truthy info = true)
      by (destruct H as [H|H]; apply (get_none_nonempty _ _ _ H)).
    cbn [info_truthy info_or_empty andb]. rewrite T.
    destruct H as [H|H]; rewrite H.
    + reflexivity.
    + destruct (get info "totalDebt" (PyNum 0)); reflexivity.
Qed.

Lemma net_debt_none_raises_witness :
  calculate_wacc [("totalDebt"%string, PyNone);
                  ("marketCap"%string, PyNum 980e9)] = PyNum 0.085
  /\ dcf_price_of (Some [("totalDebt"%string, PyNone);
                         ("marketCap"%string, PyNum 980e9)])
                  (PyNum 700e9) (PyNum 950e6)
     = raise TypeError.
Proof.
  destruct (net_debt_none_raises [("totalDebt"%string, PyNone);
                                  ("marketCap"%string, PyNum 980e9)])
    as [W D].
  - left. reflexivity.
  - split; [exact W|]. apply D. reflexivity.
Defined.

(** ** Scenario targets *)

Ltac py_eval_in H :=
  cbn [bind ret raise try_except py_add py_sub py_mul py_arith py_pow
       py_lt py_gt py_max py_abs truthy isna is_none] in H.

Lemma blend_with_dcf_num (pe p scale : Q) :
  blend_with_dcf (PyNum pe) (PyNum p) (PyNum scale)
  = ret (PyNum (if Qeq_bool p 0 then pe
                else pe * 0.5 + p * scale * 0.5)).
Proof.
  unfold blend_with_dcf. cbn [truthy].
  destruct (Qeq_bool p 0); reflexivity.
Qed.

Lemma base_target_num (e p : Q) :
  base_target (PyNum e) (PyNum p) None
  = ret (PyNum (if Qeq_bool p 0 then e * 45.0
                else e * 45.0 * 0.5 + p * 0.5)).
Proof.
  unfold base_target. cbn [truthy info_truthy].
  destruct (Qeq_bool p 0); reflexivity.
Qed.

(** X15. For a positive eps_2026 and a DCF price that is absent or not
    negative, without analyst targets, the three scenario targets are
    ordered 0 < bear < base < bull, and the blend keeps
    bear < weighted target < final target < bull. *)
Theorem scenario_targets_ordered (e : Q) (dcf : pyval) :
  0 < e ->
  dcf = PyNone \/ (exists p : Q, dcf = PyNum p /\ 0 <= p) ->
  exists bull base bear w t : Q,
    bull_target (PyNum e) dcf = ret (PyNum bull)
    /\ base_target (PyNum e) dcf None = ret (PyNum base)
    /\ bear_target (PyNum e) dcf = ret (PyNum bear)
    /\ scenario_blend (PyNum bull) (PyNum base) (PyNum bear)
       = ret {| target_price_weighted := PyNum w; target_price := PyNum t |}
    /\ 0 < bear /\ bear < base /\ base < bull
    /\ bear < w /\ w < t /\ t < bull.
Proof.
  intros He [-> | (p & -> & Hp)].
  - do 5 eexists. split; [reflexivity|]. split; [reflexivity|].
    split; [reflexivity|]. split; [apply scenario_blend_num|].
    repeat split; lra.
  - unfold bull_target, bear_target. py_eval.
    rewrite !blend_with_dcf_num, base_target_num.
    do 5 eexists. split; [reflexivity|]. split; [reflexivity|].
    split; [reflexivity|]. split; [apply scenario_blend_num|].
    destruct (Qeq_bool p 0) eqn:Z.
    + repeat split; lra.
    + apply Qeq_bool_neq in Z. repeat split; lra.
Qed.

Lemma scenario_targets_ordered_witness :
  exists bull base bear w t : Q,
    bull_target (PyNum 32) (PyNum 717) = ret (PyNum bull)
    /\ base_target (PyNum 32) (PyNum 717) None = ret (PyNum base)
    /\ bear_target (PyNum 32) (PyNum 717) = ret (PyNum bear)
    /\ scenario_blend (PyNum bull) (PyNum base) (PyNum bear)
       = ret {| target_price_weighted := PyNum w; target_price := PyNum t |}
    /\ 0 < bear /\ bear < base /\ base < bull
    /\ bear < w /\ w < t /\ t < bull.
Proof.
  apply (scenario_targets_ordered 32 (PyNum 717)).
  - reflexivity.
  - right. exists 717. split; [reflexivity|]. discriminate.
Defined.

Lemma base_target_none_targets (e : Q) (dcf : pyval) :
  dcf = PyNone \/ (exists p : Q, dcf = PyNum p) ->
  exists b0 : Q, base_target (PyNum e) dcf None = ret (PyNum b0).
Proof.
  intros [-> | (p & ->)].
  - eexists. reflexivity.
  - rewrite base_target_num. eexists. reflexivity.
Qed.

Lemma base_target_with_targets (e b0 c : Q) (dcf : pyval) (kv : string * pyval)
    (rest : dict) :
  base_target (PyNum e) dcf None = ret (PyNum b0) ->
  get (kv :: rest) "mean" (PyNum b0) = PyNum c ->
  base_target (PyNum e) dcf (Some (kv :: rest))
  = ret (PyNum (b0 * 0.8 + c * 0.2)).
Proof.
  unfold base_target. cbv zeta.
  cbn [info_truthy dict_truthy info_or_empty]. py_eval.
  destruct dcf as [| |p]; py_eval.
  - intros E0 Ec. injection E0 as <-. rewrite Ec. reflexivity.
  - discriminate.
  - destruct (negb (Qeq_bool p 0)); py_eval;
      intros E0 Ec; injection E0 as <-; rewrite Ec; reflexivity.
Qed.

(** X16. Analyst targets move the base target to
    0.8 * base + 0.2 * mean, a value between the two.  Targets without a
    mean, and an empty targets mapping, leave the base target where it
    was. *)
Theorem base_target_consensus (e : Q) (dcf : pyval) (targets : dict) :
  dcf = PyNone \/ (exists p : Q, dcf = PyNum p) ->
  lookup targets "mean" = None
  \/ (exists c : Q, lookup targets "mean" = Some (PyNum c)) ->
  exists b0 b1 c : Q,
    base_target (PyNum e) dcf None = ret (PyNum b0)
    /\ base_target (PyNum e) dcf (Some targets) = ret (PyNum b1)
    /\ get targets "mean" (PyNum b0) = PyNum c
    /\ (targets <> [] -> b1 == b0 * 0.8 + c * 0.2)
    /\ Qmin b0 c <= b1 <= Qmax b0 c
    /\ (lookup targets "mean" = None -> b1 == b0).
Proof.
  intros Hdcf Hmean.
  destruct (base_target_none_targets e dcf Hdcf) as (b0 & E0).
  assert (Hc : exists c, get targets "mean" (PyNum b0) = PyNum c
                         /\ (lookup targets "mean" = None -> c = b0)).
  { unfold get. destruct Hmean as [L | (c & L)]; rewrite L.
    - exists b0. split; [reflexivity|tauto].
    - exists c. split; [reflexivity|discriminate]. }
  destruct Hc as (c & Ec & Hcb).
  pose proof (Q.le_min_l b0 c). pose proof (Q.le_min_r b0 c).
  pose proof (Q.le_max_l b0 c). pose proof (Q.le_max_r b0 c).
  destruct targets as [|kv rest].
  - exists b0, b0, b0. split; [exact E0|]. split; [exact E0|].
    assert (c = b0) by (apply Hcb; reflexivity). subst c.
    split; [exact Ec|]. split; [congruence|].
    split; [|reflexivity]. split; lra.
  - exists b0, (b0 * 0.8 + c * 0.2), c. split; [exact E0|].
    split; [apply (base_target_with_targets e b0 c dcf kv rest E0 Ec)|].
    split; [exact Ec|]. split; [reflexivity|].
    split; [split; lra|].
    intro L. rewrite (Hcb L). ring.
Qed.

Lemma base_target_consensus_witness :
  exists b0 b1 c : Q,
    base_target (PyNum 32) (PyNum 717) None = ret (PyNum b0)
    /\ base_target (PyNum 32) (PyNum 717)
                   (Some [("mean"%string, PyNum 1100)]) = ret (PyNum b1)
    /\ get [("mean"%string, PyNum 1100)] "mean" (PyNum b0) = PyNum c
    /\ ([("mean"%string, PyNum 1100)] <> [] -> b1 == b0 * 0.8 + c * 0.2)
    /\ Qmin b0 c <= b1 <= Qmax b0 c
    /\ (lookup [("mean"%string, PyNum 1100)] "mean" = None -> b1 == b0).
Proof.
  apply (base_target_consensus 32 (PyNum 717) [("mean"%string, PyNum 1100)]).
  - right. exists 717. reflexivity.
  - right. exists 1100. reflexivity.
Defined.

(** ** Upside *)

(** X17. For a positive current price the upside is
    (target - price) / price * 100: positive exactly when the target is
    above the price, and above -100 exactly when the target is
    positive. *)
Theorem upside_sign (t cp : Q) :
  0 < cp ->
  exists u : Q,
    upside_of (PyNum t) (PyNum cp) = ret (PyNum u)
    /\ u == (t - cp) / cp * 100
    /\ (0 < u <-> cp < t)
    /\ (-100 < u <-> 0 < t).
Proof.
  intro Hcp. assert (Hcp0 : ~ cp == 0) by lra.
  unfold upside_of. py_eval. rewrite (py_div_num _ _ Hcp0). py_eval.
  eexists. split; [reflexivity|]. split; [reflexivity|].
  pose proof (Qinv_lt_0_compat _ Hcp) as Hi.
  assert (Hone : cp * / cp == 1) by (apply Qmult_inv_r; exact Hcp0).
  unfold Qdiv. set (i := / cp) in *.
  assert (Hu : (t - cp) * i * 100 == t * i * 100 - 100).
  { transitivity (t * i * 100 - (cp * i) * 100); [ring|].
    rewrite Hone. ring. }
  assert (Ht : 0 < t <-> 0 < t * i).
  { split; intro P.
    - apply Qmult_lt_0_compat; assumption.
    - destruct (Qlt_le_dec 0 t) as [|N]; [assumption|].
      assert (t * i <= 0 * i) by (apply Qmult_le_compat_r; lra). lra. }
  assert (Hd : cp < t <-> 0 < (t - cp) * i).
  { split; intro P.
    - apply Qmult_lt_0_compat; lra.
    - destruct (Qlt_le_dec cp t) as [|N]; [assumption|].
      assert ((t - cp) * i <= 0 * i) by (apply Qmult_le_compat_r; lra).
      lra. }
  split.
  - rewrite Hd. set (x := (t - cp) * i). split; intro; lra.
  - rewrite Hu, Ht. set (x := t * i). split; intro; lra.
Qed.

Lemma upside_sign_witness :
  exists u : Q,
    upside_of (PyNum 1648.5) (PyNum 1030.05) = ret (PyNum u)
    /\ u == (1648.5 - 1030.05) / 1030.05 * 100
    /\ (0 < u <-> 1030.05 < 1648.5)
    /\ (-100 < u <-> 0 < 1648.5).
Proof.
  apply (upside_sign 1648.5 1030.05). reflexivity.
Defined.

(** ** The model on well-formed data *)

Lemma finite_or_absent_get (info : dict) (k : string) (q0 : Q) :
  finite_or_absent info k -> exists q : Q, get info k (PyNum q0) = PyNum q.
Proof.
  unfold get. intros [E | (q & E)]; rewrite E; eexists; reflexivity.
Qed.

Lemma calculate_dcf_base_zero (cf : pyval) (rest : list pyval) (w : Q)
    (g : pyval) (years : nat) :
  1 + w == 0 ->
  calculate_dcf (cf :: rest) (PyNum w) g years = (PyNone, PyNone, PyNone).
Proof.
  intro Hz.
  assert (Z : (1 + w) ^ Z.of_nat 1 == 0) by (cbn; exact Hz).
  destruct (py_div_zero cf _ Z) as (e & E).
  apply (calculate_dcf_loop_raises _ _ _ _ e).
  cbn [discount_loop]. py_eval. rewrite E. reflexivity.
Qed.

(** On finite inputs the call returns three numbers or three [None]. *)
Lemma calculate_dcf_num_or_none (cfs : list Q) (w g : Q) (years : nat) :
  calculate_dcf (map PyNum cfs) (PyNum w) (PyNum g) years
  = (PyNone, PyNone, PyNone)
  \/ exists ev pv tv : Q,
       calculate_dcf (map PyNum cfs) (PyNum w) (PyNum g) years
       = (PyNum ev, PyNum pv, PyNum tv).
Proof.
  destruct cfs as [|c rest]; [left; reflexivity|].
  destruct (Qeq_dec (1 + w) 0) as [Z | NZ].
  - left. apply calculate_dcf_base_zero. exact Z.
  - destruct (Qeq_dec (w - g) 0) as [S | NS].
    + left. apply calculate_dcf_zero_spread. lra.
    + right.
      destruct (calculate_dcf_num w NZ (c :: rest) g years) as
        (ev & pv & tv & E & _); [discriminate|exact NS|].
      exists ev, pv, tv. exact E.
Qed.

Lemma discount_rate_num (info : option dict) :
  (forall i : dict,
     info = Some i ->
     finite_or_absent i "beta" /\ finite_or_absent i "totalDebt"
     /\ finite_or_absent i "totalCash" /\ finite_or_absent i "marketCap"
     /\ finite_or_absent i "interestExpense") ->
  exists w : Q, discount_rate info = PyNum w.
Proof.
  intro H. unfold discount_rate. destruct info as [i|]; cbn [info_truthy].
  - destruct (dict_truthy i); [|eexists; reflexivity].
    cbn [info_or_empty].
    destruct (H i eq_refl) as (Hb & Hd & Hc & Hm & Hi).
    destruct (finite_or_absent_get _ _ 0.8 Hb) as (b & Eb).
    destruct (finite_or_absent_get _ _ 0 Hd) as (d & Ed).
    destruct (finite_or_absent_get _ _ 0 Hc) as (c & Ec).
    destruct (finite_or_absent_get _ _ 0 Hm) as (mc & Emc).
    destruct (finite_or_absent_get _ _ 0 Hi) as (ie & Eie).
    rewrite (calculate_wacc_closed_form i b d c mc ie Eb Ed Ec Emc Eie).
    eexists. reflexivity.
  - eexists. reflexivity.
Qed.

Lemma dcf_price_of_num (info : option dict) (ev : pyval) (s : Q) :
  (forall i : dict,
     info = Some i ->
     finite_or_absent i "totalDebt" /\ finite_or_absent i "totalCash") ->
  ev = PyNone \/ (exists x : Q, ev = PyNum x) ->
  0 < s ->
  dcf_price_of info ev (PyNum s) = ret PyNone
  \/ exists p : Q, dcf_price_of info ev (PyNum s) = ret (PyNum p).
Proof.
  intros H Hev Hs. unfold dcf_price_of.
  destruct Hev as [-> | (x & ->)]; [left; reflexivity|].
  destruct (truthy (PyNum x)); [|left; reflexivity].
  destruct info as [i|]; cbn [info_truthy andb]; [|left; reflexivity].
  destruct (dict_truthy i); [|left; reflexivity].
  cbn [info_or_empty].
  destruct (H i eq_refl) as (Hd & Hc).
  destruct (finite_or_absent_get _ _ 0 Hd) as (d & ->).
  destruct (finite_or_absent_get _ _ 0 Hc) as (c & ->).
  py_eval. rewrite (proj2 (Qltb_lt _ _) Hs).
  assert (Hs0 : ~ s == 0) by lra.
  rewrite (py_div_num _ _ Hs0). right. eexists. reflexivity.
Qed.

Lemma base_target_finite (e : Q) (dcf : pyval) (targets : option dict) :
  dcf = PyNone \/ (exists p : Q, dcf = PyNum p) ->
  (forall t : dict, targets = Some t -> finite_or_absent t "mean") ->
  exists b : Q, base_target (PyNum e) dcf targets = ret (PyNum b).
Proof.
  intros Hdcf Ht.
  destruct (base_target_none_targets e dcf Hdcf) as (b0 & E0).
  destruct targets as [[|kv rest]|].
  - exists b0. exact E0.
  - destruct (finite_or_absent_get _ _ b0 (Ht _ eq_refl)) as (c & Ec).
    eexists. apply (base_target_with_targets e b0 c dcf kv rest E0 Ec).
  - exists b0. exact E0.
Qed.

Lemma bull_bear_target_finite (e : Q) (dcf : pyval) :
  dcf = PyNone \/ (exists p : Q, dcf = PyNum p) ->
  exists bull bear : Q,
    bull_target (PyNum e) dcf = ret (PyNum bull)
    /\ bear_target (PyNum e) dcf = ret (PyNum bear).
Proof.
  intros [-> | (p & ->)].
  - do 2 eexists. split; reflexivity.
  - unfold bull_target, bear_target. py_eval.
    rewrite !blend_with_dcf_num. do 2 eexists. split; reflexivity.
Qed.

Lemma eps_model_finite (v g24 g25 g26 g27 : pyval)
    (cp mc fe te a b c m25 m26 m27 : Q) (m24 bull : pyval) :
  0 < cp -> 0 < mc ->
  exists e24 e25 e26 e27 : Q,
    eps_model
      {| current_price := PyNum cp; market_cap := PyNum mc;
         revenue_2024 := v; ttm_eps := PyNum te; forward_eps := PyNum fe |}
      {| revenue_2025 := PyNum a; revenue_2026 := PyNum b;
         revenue_2027 := PyNum c; glp1_2024 := g24;
         glp1_2025 := g25; glp1_2026 := g26; glp1_2027 := g27 |}
      {| op_margin_2024 := m24; op_margin_2025 := PyNum m25;
         op_margin_2026 := PyNum m26; op_margin_2027 := PyNum m27;
         op_margin_2026_bull := bull |}
    = ret {| shares_outstanding := PyNum (mc / cp);
             eps_2024 := PyNum e24; eps_2025 := PyNum e25;
             eps_2026 := PyNum e26; eps_2027 := PyNum e27 |}.
Proof.
  intros Hcp Hmc.
  assert (Hcp0 : ~ cp == 0) by lra.
  pose proof (quotient_pos _ _ Hmc Hcp) as Hs.
  assert (Hs0 : ~ mc / cp == 0) by lra.
  unfold eps_model.
  cbn [revenue_2025 revenue_2026 revenue_2027 op_margin_2025 op_margin_2026
       op_margin_2027 market_cap current_price forward_eps ttm_eps truthy].
  rewrite (py_div_num _ _ Hcp0). cbn [bind ret].
  rewrite !(naive_eps_num _ _ _ Hs0). cbn [bind ret].
  exists (if Qeq_bool fe 0 then te else fe).
  destruct (Qeq_bool fe 0); cbn [negb]; py_eval;
    match goal with
    | |- context [Qltb ?x ?y] => destruct (Qltb x y)
    end; py_eval; try (do 3 eexists; reflexivity);
    match goal with
    | |- context [Qltb ?x ?y] => destruct (Qltb x y)
    end; py_eval;
    match goal with
    | |- context [Qltb ?x ?y] => destruct (Qltb x y)
    end; py_eval; do 3 eexists; reflexivity.
Qed.

(** From a DCF price that is [None] or finite to the end of the model. *)
Ltac finish_valuation e dcf cp Htargets :=
  let Hdcf := fresh "Hdcf" in
  assert (Hdcf : dcf = PyNone \/ (exists x : Q, dcf = PyNum x))
    by (first [left; reflexivity | right; eexists; reflexivity]);
  destruct (base_target_finite e dcf _ Hdcf Htargets) as (? & ->);
  destruct (bull_bear_target_finite e dcf Hdcf) as (? & ? & -> & ->);
  cbn [bind ret]; rewrite scenario_blend_num;
  cbn [bind ret target_price];
  unfold upside_of; py_eval;
  rewrite (py_div_num _ cp) by lra; py_eval;
  do 3 eexists; split; [reflexivity|]; split; reflexivity.

(** X18. On well-formed data the model section never raises and ends in
    finite figures.  Well-formed: the inputs resolve to finite numbers
    with a positive price and market capitalisation (the base-year revenue
    may be NaN), every entry [info] holds under beta, totalDebt,
    totalCash, marketCap and interestExpense is missing or finite, and so
    is the mean of the analyst targets.  Then a valuation is returned
    whose final target price and upside are finite numbers. *)
Theorem valuation_model_completes (d : fetched) (v : pyval)
    (cp mc fe te : Q) :
  resolve_inputs d
  = ret {| current_price := PyNum cp; market_cap := PyNum mc;
           revenue_2024 := v; ttm_eps := PyNum te;
           forward_eps := PyNum fe |} ->
  v <> PyNone -> 0 < cp -> 0 < mc ->
  (forall i : dict,
     lly_info d = Some i ->
     finite_or_absent i "beta" /\ finite_or_absent i "totalDebt"
     /\ finite_or_absent i "totalCash" /\ finite_or_absent i "marketCap"
     /\ finite_or_absent i "interestExpense") ->
  (forall t : dict, analyst_targets d = Some t -> finite_or_absent t "mean") ->
  exists (val : valuation) (t u : Q),
    valuation_model d = ret val
    /\ target_price (val_blend val) = PyNum t
    /\ upside val = PyNum u.
Proof.
  intros Hres Hv Hcp Hmc Hinfo Htargets.
  unfold valuation_model. rewrite Hres. cbn [bind ret revenue_2024].
  destruct (revenue_model_not_none v Hv) as (g & ->). cbn [bind ret].
  destruct (operating_margin_2024_range (lly_info d)) as (m & Em & _ & _).
  rewrite (margin_model_num _ m Em). cbn [bind ret].
  destruct (eps_model_finite v g (PyNum (59.5 * 0.55))
              (PyNum (59.5 * 1.28 * 0.60))
              (PyNum (59.5 * 1.28 * 1.22 * 0.62)) cp mc fe te
              59.5 (59.5 * 1.28) (59.5 * 1.28 * 1.22)
              (m + 0.01) (m + 0.01 + 0.01) (m + 0.01 + 0.01 + 0.005)
              (PyNum m) (PyNum (m + 0.01 + 0.01 + 0.02)) Hcp Hmc)
    as (e24 & e25 & e26 & e27 & ->).
  cbn [bind ret]. rewrite (cashflow_model_eval v g m Hv). cbn [bind ret].
  destruct (discount_rate_num (lly_info d) Hinfo) as (w & ->).
  assert (Hdebt : forall i : dict,
             lly_info d = Some i ->
             finite_or_absent i "totalDebt" /\ finite_or_absent i "totalCash")
    by (intros i Hi; destruct (Hinfo i Hi); tauto).
  pose proof (quotient_pos _ _ Hmc Hcp) as Hs.
  cbn [shares_outstanding eps_2026 current_price target_price].
  match goal with
  | |- context [calculate_dcf (map PyNum ?cfs) (PyNum w) (PyNum ?g) ?y] =>
      destruct (calculate_dcf_num_or_none cfs w g y)
        as [E | (ev & pv & tv & E)]; rewrite E
  end.
  - destruct (dcf_price_of_num (lly_info d) PyNone (mc / cp) Hdebt
                (or_introl eq_refl) Hs) as [P | (p & P)]; rewrite P;
      cbn [bind ret].
    + finish_valuation e26 PyNone cp Htargets.
    + finish_valuation e26 (PyNum p) cp Htargets.
  - assert (Hev : PyNum ev = PyNone \/ (exists x : Q, PyNum ev = PyNum x))
      by (right; eexists; reflexivity).
    destruct (dcf_price_of_num (lly_info d) (PyNum ev) (mc / cp) Hdebt
                Hev Hs) as [P | (p & P)]; rewrite P; cbn [bind ret].
    + finish_valuation e26 PyNone cp Htargets.
    + finish_valuation e26 (PyNum p) cp Htargets.
Qed.

(** X19. In the pipeline, any discount rate above the terminal growth of
    3.5% gives a DCF with positive components: for every [info] and every
    base-year revenue but [None], the model's five cash flows discount to
    0 < pv_cf, 0 < pv_terminal and a positive enterprise value. *)
Theorem pipeline_dcf_positive (info : option dict) (v : pyval) (w : Q) :
  v <> PyNone -> 0.035 < w ->
  exists (cfs : list pyval) (ev pv tv : Q),
    (r <- revenue_model v ;;
     mm <- margin_model info ;;
     cashflow_model v r mm) = ret cfs
    /\ calculate_dcf cfs (PyNum w) (PyNum 0.035) 5
       = (PyNum ev, PyNum pv, PyNum tv)
    /\ 0 < pv /\ 0 < tv /\ 0 < ev /\ ev == pv + tv.
Proof.
  intros Hv Hw.
  destruct (operating_margin_2024_range info) as (m & Em & Hm1 & Hm2).
  destruct (revenue_model_not_none v Hv) as (g & ->).
  rewrite (margin_model_num info m Em). cbn [bind ret].
  rewrite (cashflow_model_eval v g m Hv).
  match goal with
  | |- context [map PyNum ?l] => set (cfs := l)
  end.
  assert (Hall : Forall (fun c => 0 < c) cfs).
  { unfold cfs. change 1e9 with 1000000000.
    repeat (constructor; [lra|]). constructor. }
  assert (Hne : cfs <> []) by discriminate.
  assert (Hbase : ~ 1 + w == 0) by lra.
  assert (Hspread : ~ w - 0.035 == 0) by lra.
  destruct (calculate_dcf_num w Hbase cfs 0.035 5 Hne Hspread)
    as (ev & pv & tv & E & Hpv & Htv & Hev).
  destruct (calculate_dcf_positive_components cfs w 0.035 5 Hne Hall)
    as (ev' & pv' & tv' & E' & P1 & P2 & P3 & P4); [lra|exact Hw|].
  rewrite E in E'. injection E' as <- <- <-.
  exists (map PyNum cfs), ev, pv, tv.
  split; [reflexivity|]. split; [exact E|].
  repeat split; try assumption; lra.
Qed.

Lemma pipeline_dcf_positive_witness :
  exists (cfs : list pyval) (ev pv tv : Q),
    (r <- revenue_model (PyNum 45.0) ;;
     mm <- margin_model None ;;
     cashflow_model (PyNum 45.0) r mm) = ret cfs
    /\ calculate_dcf cfs (PyNum 0.095) (PyNum 0.035) 5
       = (PyNum ev, PyNum pv, PyNum tv)
    /\ 0 < pv /\ 0 < tv /\ 0 < ev /\ ev == pv + tv.
Proof.
  apply (pipeline_dcf_positive None (PyNum 45.0) 0.095).
  - discriminate.
  - reflexivity.
Defined.

(** ** Fetching *)

(** X20. When the primary fetch raises (the ticker, its info or its
    history), [fetch_lly_data] reports the exception and returns no data
    and no peers; the model then runs on the constants of lines 198-202:
    discount rate 9.5%, no DCF price, final target 1648.50944256,
    whatever the provider would have answered elsewhere. *)
Theorem fetch_failure_fallback (yf : provider) (e : exn) :
  (lly <- yf "LLY"%string ;; i <- info_of lly ;; h <- history_of lly ;;
   ret (lly, i, h)) = raise e ->
  fr_error (fetch_lly_data yf) = Some e
  /\ fr_peers (fetch_lly_data yf) = []
  /\ fr_data (fetch_lly_data yf)
     = {| lly_info := None; lly_hist := None;
          financials := None; analyst_targets := None |}
  /\ exists (val : valuation) (t : Q),
       valuation_model (fr_data (fetch_lly_data yf)) = ret val
       /\ wacc val = PyNum 0.095
       /\ dcf_price val = PyNone
       /\ target_price (val_blend val) = PyNum t
       /\ t == 1648.50944256.
Proof.
  intro H. unfold fetch_lly_data. rewrite H.
  cbn [fr_error fr_peers fr_data].
  repeat (split; [reflexivity|]).
  do 2 eexists. split; [vm_compute; reflexivity|].
  repeat (split; [reflexivity|]). vm_compute. reflexivity.
Qed.

Lemma fetch_failure_fallback_witness :
  fr_error (fetch_lly_data (fun _ => raise RenderError)) = Some RenderError.
Proof.
  apply (fetch_failure_fallback (fun _ => raise RenderError) RenderError).
  reflexivity.
Defined.

Lemma fetch_peers_keys (yf : provider) (symbols : list string) :
  forall acc : list (string * peer_entry),
  map fst (fetch_peers yf symbols acc)
  = map fst acc ++ filter (peer_available yf) symbols.
Proof.
  induction symbols as [|s rest IH]; intro acc; cbn [fetch_peers filter].
  - now rewrite app_nil_r.
  - unfold peer_available at 1.
    destruct (fetch_peer yf s) as [e|entry].
    + apply IH.
    + rewrite IH, map_app, <- app_assoc. reflexivity.
Qed.

(** X21. Peer fetches are isolated.  When the primary fetch returns, the
    symbols found in the peer data are exactly the peers whose ticker,
    info and history all returned, in the order of the list, and the
    primary data handed to the report are the same whatever the peers
    did. *)
Theorem fetch_peers_isolated (yf yf' : provider) (lly : ticker)
    (i : option dict) (h : option (list pyval)) :
  yf "LLY"%string = ret lly -> yf' "LLY"%string = ret lly ->
  info_of lly = ret i -> history_of lly = ret h ->
  map fst (fr_peers (fetch_lly_data yf)) = filter (peer_available yf) peers
  /\ fr_error (fetch_lly_data yf) = None
  /\ fr_data (fetch_lly_data yf) = fr_data (fetch_lly_data yf').
Proof.
  intros Hyf Hyf' Hi Hh. unfold fetch_lly_data.
  rewrite Hyf, Hyf'. cbn [bind ret]. rewrite Hi, Hh. cbn [bind ret].
  cbn [fr_peers fr_error fr_data]. split; [|split; reflexivity].
  apply (fetch_peers_keys yf peers []).
Qed.

Lemma fetch_peers_isolated_witness :
  map fst
    (fr_peers
       (fetch_lly_data
          (fun s =>
             if String.eqb s "PFE"%string then raise RenderError
             else ret {| info_of := ret (Some []);
                         history_of := ret (Some []);
                         financials_of := raise RenderError;
                         balance_sheet_of := raise RenderError;
                         cashflow_of := raise RenderError;
                         analyst_price_targets_of := raise RenderError |})))
  = ["JNJ"; "MRK"; "ABBV"; "NVO"]%string.
Proof.
  exact (proj1 (fetch_peers_isolated
                  (fun s =>
                     if String.eqb s "PFE"%string then raise RenderError
                     else ret {| info_of := ret (Some []);
                                 history_of := ret (Some []);
                                 financials_of := raise RenderError;
                                 balance_sheet_of := raise RenderError;
                                 cashflow_of := raise RenderError;
                                 analyst_price_targets_of :=
                                   raise RenderError |})
                  (fun _ =>
                     ret {| info_of := ret (Some []);
                            history_of := ret (Some []);
                            financials_of := raise RenderError;
                            balance_sheet_of := raise RenderError;
                            cashflow_of := raise RenderError;
                            analyst_price_targets_of :=
                              raise RenderError |})
                  _ (Some []) (Some []) eq_refl eq_refl eq_refl eq_refl)).
Defined.

(** X22. The four statement accessors share one [try]: the analyst
    targets reach the report only if the financials, the balance sheet
    and the cash-flow statement were all fetched before them, while the
    financials are kept as soon as their own fetch returns. *)
Theorem fetch_statements_order (lly : ticker) :
  (forall a : dict,
     st_analyst_targets (fetch_statements lly) = Some a ->
     (exists f, financials_of lly = ret f)
     /\ (exists b, balance_sheet_of lly = ret b)
     /\ (exists c, cashflow_of lly = ret c)
     /\ analyst_price_targets_of lly = ret (Some a))
  /\ (forall f : option frame,
        financials_of lly = ret f ->
        st_financials (fetch_statements lly) = f)
  /\ (forall e : exn,
        balance_sheet_of lly = raise e \/ cashflow_of lly = raise e ->
        st_analyst_targets (fetch_statements lly) = None).
Proof.
  unfold fetch_statements. split; [|split].
  - intros a H.
    destruct (financials_of lly) as [|f]; [discriminate|].
    destruct (balance_sheet_of lly) as [|b]; [discriminate|].
    destruct (cashflow_of lly) as [|c]; [discriminate|].
    destruct (analyst_price_targets_of lly) as [|t]; [discriminate|].
    cbn [st_analyst_targets] in H. subst t.
    repeat split; eexists; reflexivity.
  - intros f ->.
    destruct (balance_sheet_of lly); [reflexivity|].
    destruct (cashflow_of lly); [reflexivity|].
    destruct (analyst_price_targets_of lly); reflexivity.
  - intros e [H | H]; destruct (financials_of lly); try reflexivity.
    + now rewrite H.
    + destruct (balance_sheet_of lly); [reflexivity|]. now rewrite H.
Qed.

Lemma fetch_statements_order_witness :
  st_analyst_targets
    (fetch_statements
       {| info_of := ret (Some []); history_of := ret (Some []);
          financials_of := ret None;
          balance_sheet_of := raise RenderError;
          cashflow_of := ret None;
          analyst_price_targets_of :=
            ret (Some [("mean"%string, PyNum 1100)]) |})
  = None.
Proof.
  apply (proj2 (proj2 (fetch_statements_order
           {| info_of := ret (Some []); history_of := ret (Some []);
              financials_of := ret None;
              balance_sheet_of := raise RenderError;
              cashflow_of := ret None;
              analyst_price_targets_of :=
                ret (Some [("mean"%string, PyNum 1100)]) |}))
           RenderError).
  left. reflexivity.
Defined.

Lemma valuation_model_completes_witness :
  exists (val : valuation) (t u : Q),
    valuation_model
      {| lly_info := Some [("currentPrice"%string, PyNum 1030.05);
                           ("marketCap"%string, PyNum 980e9);
                           ("beta"%string, PyNum 0.4);
                           ("totalDebt"%string, PyNum 30e9);
                           ("totalCash"%string, PyNum 3e9);
                           ("forwardEps"%string, PyNum 22.66);
                           ("operatingMargins"%string, PyNum 0.483)];
         lly_hist := Some [PyNum 1000];
         financials := Some [("Total Revenue"%string, [PyNaN; PyNaN])];
         analyst_targets := Some [("mean"%string, PyNum 1100)] |}
    = ret val
    /\ target_price (val_blend val) = PyNum t
    /\ upside val = PyNum u.
Proof.
  apply (valuation_model_completes _ PyNaN 1030.05 980e9 22.66 20.45).
  - reflexivity.
  - discriminate.
  - reflexivity.
  - reflexivity.
  - intros i H. injection H as <-.
    repeat split;
      first [left; reflexivity | right; eexists; reflexivity].
  - intros t H. injection H as <-. right. eexists. reflexivity.
Defined.

(** X23. Only a missing or [None] market capitalisation is replaced by a
    default: when [info] reports a price and a market capitalisation one
    of which is zero, the share count or the first EPS division raises
    [ZeroDivisionError] and the model returns nothing. *)
Theorem valuation_model_zero_division (d : fetched) (info : dict)
    (hist : list pyval) (close v : pyval) (cp mc : Q) :
  lly_info d = Some info -> lly_hist d = Some hist ->
  last_item hist = ret close ->
  lookup info "currentPrice" = Some (PyNum cp) ->
  lookup info "marketCap" = Some (PyNum mc) ->
  base_revenue (financials d) info = ret v -> v <> PyNone ->
  cp == 0 \/ mc == 0 ->
  valuation_model d = raise ZeroDivisionError.
Proof.
  intros Hinfo Hhist Hclose Hcp Hmc Hrev Hv Hzero.
  unfold valuation_model, resolve_inputs.
  rewrite Hinfo, Hhist, Hclose. cbn [bind ret]. unfold get.
  rewrite Hcp, Hmc, Hrev. cbn [is_none bind ret revenue_2024].
  destruct (revenue_model_not_none v Hv) as (g & ->). cbn [bind ret].
  destruct (operating_margin_2024_range (Some info)) as (m & Em & _ & _).
  rewrite (margin_model_num _ m Em). cbn [bind ret].
  unfold eps_model. cbn [market_cap current_price].
  destruct (Qeq_dec cp 0) as [Zcp | Ncp].
  - unfold py_div. apply Qeq_bool_iff in Zcp. rewrite Zcp. reflexivity.
  - destruct Hzero as [Z | Zmc]; [contradiction|].
    rewrite (py_div_num _ _ Ncp). cbn [bind ret].
    cbn [revenue_2025 op_margin_2025]. unfold naive_eps. py_eval.
    assert (Zs : Qeq_bool (mc / cp) 0 = true).
    { apply Qeq_bool_iff. rewrite Zmc. unfold Qdiv. ring. }
    unfold py_div. rewrite Zs. reflexivity.
Qed.

Lemma valuation_model_zero_division_witness :
  valuation_model
    {| lly_info := Some [("currentPrice"%string, PyNum 1030.05);
                         ("marketCap"%string, PyNum 0)];
       lly_hist := Some [PyNum 1030.05];
       financials := None; analyst_targets := None |}
  = raise ZeroDivisionError.
Proof.
  apply (valuation_model_zero_division _
           [("currentPrice"%string, PyNum 1030.05);
            ("marketCap"%string, PyNum 0)]
           [PyNum 1030.05] (PyNum 1030.05) (PyNum (45.0e9 / 1e9))
           1030.05 0);
    try reflexivity.
  - discriminate.
  - right. reflexivity.
Defined.

(** ** The report run *)

Lemma started_events (fb : bool) (x : event) :
  In x (PrintFetching :: (if fb then [PrintFallback] else [])) ->
  x = PrintFetching \/ x = PrintFallback.
Proof.
  destruct fb; cbn [In]; intuition.
Qed.

(** X24. [pdf.output] is called exactly when the model and the page
    assembly have both returned, and only with the fixed file name; the
    success line is printed exactly when [generate_report] returns, and a
    stack trace exactly when it raises, for the exception raised. *)
Theorem generate_report_outcome (d : fetched) (pdf : renderer) :
  (forall p : string,
     In (Output p) (fst (generate_report d pdf))
     <-> p = output_file
         /\ exists v, valuation_model d = inr v /\ layout pdf v = inr tt)
  /\ (In (PrintSuccess output_file) (log (main d pdf))
      <-> snd (generate_report d pdf) = inr output_file)
  /\ (forall e : exn,
        In (PrintTraceback e) (log (main d pdf))
        <-> snd (generate_report d pdf) = inl e).
Proof.
  unfold main, generate_report.
  set (started := PrintFetching :: (if fallback d then [PrintFallback]
                                    else [])).
  assert (S : forall x, In x started ->
                        x = PrintFetching \/ x = PrintFallback)
    by (intro x; apply started_events).
  clearbody started.
  destruct (valuation_model d) as [e0|v].
  { cbn [fst snd log]. split; [|split].
    - intro p. split.
      + intro H. destruct (S _ H); discriminate.
      + intros (_ & v & H & _). discriminate.
    - split; [|discriminate]. intro H. apply in_app_iff in H.
      destruct H as [H|H]; [destruct (S _ H); discriminate|].
      cbn [In] in H. intuition discriminate.
    - intro e. split.
      + intro H. apply in_app_iff in H.
        destruct H as [H|H]; [destruct (S _ H); discriminate|].
        cbn [In] in H. destruct H as [H|[H|[]]]; [discriminate|].
        now injection H as <-.
      + intro H. injection H as <-. apply in_app_iff. right.
        cbn [In]. tauto. }
  destruct (layout pdf v) as [e1|[]] eqn:L.
  { cbn [fst snd log]. split; [|split].
    - intro p. split.
      + intro H. destruct (S _ H); discriminate.
      + intros (_ & v' & H & L'). injection H as <-. congruence.
    - split; [|discriminate]. intro H. apply in_app_iff in H.
      destruct H as [H|H]; [destruct (S _ H); discriminate|].
      cbn [In] in H. intuition discriminate.
    - intro e. split.
      + intro H. apply in_app_iff in H.
        destruct H as [H|H]; [destruct (S _ H); discriminate|].
        cbn [In] in H. destruct H as [H|[H|[]]]; [discriminate|].
        now injection H as <-.
      + intro H. injection H as <-. apply in_app_iff. right.
        cbn [In]. tauto. }
  destruct (output pdf output_file) as [e2|[]].
  { cbn [fst snd log]. split; [|split].
    - intro p. split.
      + intro H. apply in_app_iff in H.
        destruct H as [H|H]; [destruct (S _ H); discriminate|].
        cbn [In] in H. destruct H as [H|[]]. injection H as <-.
        split; [reflexivity|]. exists v. split; [reflexivity|exact L].
      + intros (-> & _). apply in_app_iff. right. cbn [In]. tauto.
    - split; [|discriminate]. intro H. apply in_app_iff in H.
      destruct H as [H|H].
      + apply in_app_iff in H.
        destruct H as [H|H]; [destruct (S _ H); discriminate|].
        cbn [In] in H. intuition discriminate.
      + cbn [In] in H. intuition discriminate.
    - intro e. split.
      + intro H. apply in_app_iff in H. destruct H as [H|H].
        * apply in_app_iff in H.
          destruct H as [H|H]; [destruct (S _ H); discriminate|].
          cbn [In] in H. intuition discriminate.
        * cbn [In] in H. destruct H as [H|[H|[]]]; [discriminate|].
          now injection H as <-.
      + intro H. injection H as <-. apply in_app_iff. right.
        cbn [In]. tauto. }
  destruct (confirm pdf output_file) as [e3|[]].
  { cbn [fst snd log]. split; [|split].
    - intro p. split.
      + intro H. apply in_app_iff in H.
        destruct H as [H|H]; [destruct (S _ H); discriminate|].
        cbn [In] in H. destruct H as [H|[]]. injection H as <-.
        split; [reflexivity|]. exists v. split; [reflexivity|exact L].
      + intros (-> & _). apply in_app_iff. right. cbn [In]. tauto.
    - split; [|discriminate]. intro H. apply in_app_iff in H.
      destruct H as [H|H].
      + apply in_app_iff in H.
        destruct H as [H|H]; [destruct (S _ H); discriminate|].
        cbn [In] in H. intuition discriminate.
      + cbn [In] in H. intuition discriminate.
    - intro e. split.
      + intro H. apply in_app_iff in H. destruct H as [H|H].
        * apply in_app_iff in H.
          destruct H as [H|H]; [destruct (S _ H); discriminate|].
          cbn [In] in H. intuition discriminate.
        * cbn [In] in H. destruct H as [H|[H|[]]]; [discriminate|].
          now injection H as <-.
      + intro H. injection H as <-. apply in_app_iff. right.
        cbn [In]. tauto. }
  cbn [fst snd log]. split; [|split].
  - intro p. split.
    + intro H. apply in_app_iff in H.
      destruct H as [H|H]; [destruct (S _ H); discriminate|].
      cbn [In] in H. destruct H as [H|[H|[]]]; [|discriminate].
      injection H as <-.
      split; [reflexivity|]. exists v. split; [reflexivity|exact L].
    + intros (-> & _). apply in_app_iff. right. cbn [In]. tauto.
  - split; [reflexivity|]. intros _. apply in_app_iff. right.
    cbn [In]. tauto.
  - intro e. split; [|discriminate]. intro H. apply in_app_iff in H.
    destruct H as [H|H]; [destruct (S _ H); discriminate|].
    cbn [In] in H. intuition discriminate.
Qed.

(** X25. A failed primary fetch does not stop the run: if the renderer
    assembles and writes the document, the run prints the fetch line and
    the fallback line and calls [pdf.output].  If the success line can
    then be printed, it is; if printing it raises (line 1041), the error
    line and the stack trace follow the written document.  The exit
    status is 0 either way. *)
Theorem run_after_fetch_failure (yf : provider) (pdf : renderer) (e : exn) :
  (lly <- yf "LLY"%string ;; i <- info_of lly ;; h <- history_of lly ;;
   ret (lly, i, h)) = raise e ->
  (forall v : valuation, layout pdf v = ret tt) ->
  output pdf output_file = ret tt ->
  (confirm pdf output_file = ret tt ->
   log (run yf pdf)
   = [PrintFetching; PrintFallback; Output output_file;
      PrintSuccess output_file])
  /\ (forall e' : exn,
        confirm pdf output_file = raise e' ->
        log (run yf pdf)
        = [PrintFetching; PrintFallback; Output output_file;
           PrintError e'; PrintTraceback e'])
  /\ In (Output output_file) (log (run yf pdf))
  /\ exit_status (run yf pdf) = 0%Z.
Proof.
  intros Hfetch Hlayout Houtput.
  assert (V : exists v : valuation,
             valuation_model
               {| lly_info := None; lly_hist := None;
                  financials := None; analyst_targets := None |} = inr v)
    by (eexists; vm_compute; reflexivity).
  destruct V as (v & V).
  unfold run, fetch_lly_data. rewrite Hfetch. unfold raise. cbn [fr_data].
  unfold main, generate_report. rewrite V, Hlayout, Houtput.
  cbn [fallback lly_info lly_hist app].
  destruct (confirm pdf output_file) as [e3|[]]; cbn [log exit_status app].
  - split; [discriminate|]. split.
    + intros e' H. injection H as <-. reflexivity.
    + split; [do 2 right; left; reflexivity|reflexivity].
  - split; [reflexivity|]. split; [discriminate|].
    split; [do 2 right; left; reflexivity|reflexivity].
Qed.

Lemma run_after_fetch_failure_witness :
  log (run (fun _ => raise RenderError)
           {| layout := fun _ => ret tt; output := fun _ => ret tt;
              confirm := fun _ => ret tt |})
  = [PrintFetching; PrintFallback; Output output_file;
     PrintSuccess output_file]
  /\ log (run (fun _ => raise RenderError)
              {| layout := fun _ => ret tt; output := fun _ => ret tt;
                 confirm := fun _ => raise UnicodeEncodeError |})
     = [PrintFetching; PrintFallback; Output output_file;
        PrintError UnicodeEncodeError; PrintTraceback UnicodeEncodeError].
Proof.
  split.
  - apply (proj1 (run_after_fetch_failure
                    (fun _ => raise RenderError)
                    {| layout := fun _ => ret tt; output := fun _ => ret tt;
                       confirm := fun _ => ret tt |}
                    RenderError eq_refl (fun _ => eq_refl) eq_refl)).
    reflexivity.
  - apply (proj1 (proj2 (run_after_fetch_failure
                    (fun _ => raise RenderError)
                    {| layout := fun _ => ret tt; output := fun _ => ret tt;
                       confirm := fun _ => raise UnicodeEncodeError |}
                    RenderError eq_refl (fun _ => eq_refl) eq_refl))
             UnicodeEncodeError).
    reflexivity.
Defined.
